(** * doc_scanner.scanner: line classification and intersection resolution

    A shallow embedding of [src/doc_scanner/scanner.py]: the orientation
    classifier [_divide_line_orientation], the pairwise intersection
    [_pairwise_intersection], the resolver [_find_intersections] and the
    orchestrator [select_edge].

    Modelling choices.
    - NumPy's float64 values (angles, intercepts, hit counts, coordinates)
      are real numbers; rounding, infinities and NaN floats are not modelled.
    - The line table is a pandas DataFrame with the default RangeIndex built
      by [select_edge]; row labels are positions.  The table is a mutable
      object: it lives in a heap and is passed by reference, because
      [_divide_line_orientation] writes its [direction] column in place and
      [_find_intersections] reads it back through the same reference.
    - Python exceptions are the [Raise] outcome of a state-and-error monad.
    - [doc_scanner.math_utils] is not part of the sources at hand; the code
      of [scanner.py] is parameterised by its three functions, and a model
      of them written from the specification lives in [Module MathUtils]. *)

From Stdlib Require Import Reals Lra Lia.
From stdpp Require Import base option list strings.

(** ** Python outcomes *)

Inductive exn :=
| KeyError
| ValueError
| DegenerateGeometry
| ParallelLines
| DanglingRef.  (* model only: a reference that is not bound in the heap *)

#[global] Instance exn_eq_dec : EqDecision exn.
Proof. solve_decision. Defined.

Inductive outcome (A : Type) :=
| Return (a : A)
| Raise (e : exn).
Arguments Return {A} a.
Arguments Raise {A} e.

#[global] Instance outcome_ret : MRet outcome := λ A a, Return a.
#[global] Instance outcome_bind : MBind outcome := λ A B f m,
  match m with Return a => f a | Raise e => Raise e end.

(** [for item in items: acc = body(acc, item)], stopping at the first
    exception. *)
Fixpoint for_acc {A S : Type} (items : list A) (acc : S) (body : S → A → outcome S) : outcome S :=
  match items with
  | [] => Return acc
  | item :: rest => acc' ← body acc item; for_acc rest acc' body
  end.

(** ** Data model *)

(** One row of the peak table: columns [hits], [angle], [intercept]. *)
Record PolarLine := { hits : R; angle : R; intercept : R }.

(** A cell of the object-typed [direction] column: a Python string, or the
    NaN with which pandas fills a column that has just been created. *)
Inductive cell := NaN | Str (s : string).

#[global] Instance cell_eq_dec : EqDecision cell.
Proof. solve_decision. Defined.

(** The line table.  [Unclassified] has the three numeric columns only;
    [Classified] also has the [direction] column. *)
Inductive DataFrame :=
| Unclassified (rows : list PolarLine)
| Classified (rows : list (PolarLine * cell)).

Definition lines_of (df : DataFrame) : list PolarLine :=
  match df with
  | Unclassified rows => rows
  | Classified rows => rows.*1
  end.

(** [list(df)]: iterating a DataFrame yields its column labels. *)
Definition columns (df : DataFrame) : list string :=
  match df with
  | Unclassified _ => ["hits"; "angle"; "intercept"]
  | Classified _ => ["hits"; "angle"; "intercept"; "direction"]
  end.

(** [df.iterrows()]: the pairs (label, row), taken from a snapshot of the
    values made when the iteration starts. *)
Definition iterrows (df : DataFrame) : list (nat * PolarLine) :=
  imap (λ ix line, (ix, line)) (lines_of df).

(** [df._set_value(ix, 'direction', value)] for a label [ix] of the index:
    a missing column is created filled with NaN, then the cell is written.
    ([iterrows] only hands out labels of the index; for any other label
    this model leaves the cells as they are.) *)
Definition _set_value (df : DataFrame) (ix : nat) (value : string) : DataFrame :=
  let rows := match df with
              | Unclassified rows => (λ line, (line, NaN)) <$> rows
              | Classified rows => rows
              end in
  Classified (alter (λ row, (row.1, Str value)) ix rows).

(** [df[df['direction'] == label]]: the rows whose direction cell is the
    string [label], in table order. *)
Definition select_direction (label : string) (rows : list (PolarLine * cell)) : list PolarLine :=
  (filter (λ row, row.2 = Str label) rows).*1.

(** [contour_image]: only its shape is read. *)
Record Image := { shape : nat * nat }.

Record Point := { x : R; y : R }.

(** Coefficients of [a*x + b*y = c]. *)
Record LineEquation := { coef_a : R; coef_b : R; coef_c : R }.

(** The objects that can sit in the Python list returned by [select_edge]:
    column labels are [str] objects, corner candidates are points. *)
Inductive pyobj := PyStr (s : string) | PyPoint (p : Point).

(** ** The heap and the monad of Python statements *)

Definition ref := nat.
Abbreviation heap := (list DataFrame).
Definition Py (A : Type) : Type := heap → outcome A * heap.

#[global] Instance py_ret : MRet Py := λ A a h, (Return a, h).
#[global] Instance py_bind : MBind Py := λ A B f m h,
  match m h with
  | (Return a, h') => f a h'
  | (Raise e, h') => (Raise e, h')
  end.

Definition raise {A : Type} (e : exn) : Py A := λ h, (Raise e, h).

Definition lift {A : Type} (o : outcome A) : Py A := λ h, (o, h).

(** [try: body / except e: handler]. *)
Definition try_except {A : Type} (body : Py A) (e : exn) (handler : Py A) : Py A :=
  λ h, match body h with
       | (Return a, h') => (Return a, h')
       | (Raise e', h') => if decide (e' = e) then handler h' else (Raise e', h')
       end.

Definition deref (r : ref) : Py DataFrame :=
  λ h, match h !! r with
       | Some df => (Return df, h)
       | None => (Raise DanglingRef, h)
       end.

Definition assign (r : ref) (df : DataFrame) : Py unit :=
  λ h, (Return tt, <[r := df]> h).

Definition alloc (df : DataFrame) : Py ref :=
  λ h, (Return (length h), h ++ [df]).

(** [for item in items: body item]. *)
Fixpoint for_each {A : Type} (items : list A) (body : A → Py unit) : Py unit :=
  match items with
  | [] => mret tt
  | item :: rest => body item;; for_each rest body
  end.

(** [lines['direction']]: the column, or KeyError when it is missing. *)
Definition getitem_direction (lines : ref) : Py (list (PolarLine * cell)) :=
  df ← deref lines;
  match df with
  | Unclassified _ => raise KeyError
  | Classified rows => mret rows
  end.

(** ** scanner.py *)

Section Scanner.

(** The functions imported from [doc_scanner.math_utils].  They are pure:
    they receive row copies and coordinate tuples and either return a
    value or raise. *)
Variable find_point_polar : PolarLine → R * R → outcome (R * R).
Variable points2line : (R * R) * (R * R) → outcome LineEquation.
Variable intersection : LineEquation → LineEquation → outcome Point.

(** The [if]/[elif]/[else] chain of [_divide_line_orientation] that
    computes [direction] from [line['angle']]. *)
Definition direction (err : R) (line : PolarLine) : string :=
  if Rlt_dec (Rabs (angle line)) err then "vertical"
  else if Rlt_dec (Rabs (angle line - PI / 2)) err then "horizontal"
  else "irrelevant".

(** [def _divide_line_orientation(lines, err=np.pi * 1 / 12, inplace=True)];
    an argument left out at the call site is [None]. *)
Definition _divide_line_orientation
    (lines : ref) (err : option R) (inplace : option bool) : Py ref :=
  let err := default (PI * 1 / 12)%R err in
  let inplace := default true inplace in
  out ← (if negb inplace then df ← deref lines; alloc df else mret lines);
  df ← deref out;
  for_each (iterrows df) (λ '(ix, line),
    cur ← deref out;
    assign out (_set_value cur ix (direction err line)));;
  mret out.

(** The sampling interval [x] of [_pairwise_intersection]. *)
Definition x_range (contour_image : option Image) : R * R :=
  match contour_image with
  | Some img => (0%R, INR (shape img).2)
  | None => (0%R, 1000%R)
  end.

(** [def _pairwise_intersection(horizontal_polar, vertical_polar,
    contour_image=None, along_length=50)]; [along_length] is unused. *)
Definition _pairwise_intersection
    (horizontal_polar vertical_polar : PolarLine)
    (contour_image : option Image) : outcome Point :=
  let x := x_range contour_image in
  y_h ← find_point_polar horizontal_polar x;
  y_v ← find_point_polar vertical_polar x;
  let horizontal_line_points := ((x.1, y_h.1), (x.2, y_h.2)) in
  let vertical_line_points := ((x.1, y_v.1), (x.2, y_v.2)) in
  l_h ← points2line horizontal_line_points;
  l_v ← points2line vertical_line_points;
  intersection l_h l_v.

(** [itertools.product(verticals, horizontals)]: the first factor is the
    outer loop. *)
Definition product {A B : Type} (l : list A) (k : list B) : list (A * B) :=
  a ← l; (λ b, (a, b)) <$> k.

(** [def _find_intersections(lines, contour_image=None)].  The result
    table [intersections] starts as the empty [pd.DataFrame()] and gets
    one row per appended point ([append] returns a new table each time):
    it is the list of its rows. *)
Definition _find_intersections
    (lines : ref) (contour_image : option Image) : Py (list Point) :=
  try_except (getitem_direction lines;; mret tt) ValueError
             (_divide_line_orientation lines None None;; mret tt);;
  column ← getitem_direction lines;
  let vertical_lines := select_direction "vertical" column in
  column ← getitem_direction lines;
  let horizontal_lines := select_direction "horizontal" column in
  let combinations := product vertical_lines horizontal_lines in
  let intersections := [] in
  lift (for_acc combinations intersections
          (λ intersections '(vertical_line, horizontal_line),
             point ← _pairwise_intersection horizontal_line vertical_line contour_image;
             Return (intersections ++ [point]))).

(** [def select_edge(result, ax=None, image=None)] called without [ax]:
    the plotting branch is not entered.  [peaks] are the rows of
    [np.array(hough_line_peaks(...)).T] and [contour_image] is
    [result.contour_image]. *)
Definition select_edge (peaks : list PolarLine) (contour_image : Image) : Py (list pyobj) :=
  lines ← alloc (Unclassified peaks);
  _divide_line_orientation lines None None;;
  intersections ← _find_intersections lines (Some contour_image);
  df ← deref lines;
  mret (PyStr <$> columns df).

(** The first three statements of [select_edge] with the tolerance and the
    image left to the caller: classification followed by resolution, with
    the resolver's table as the result. *)
Definition classify_then_resolve
    (peaks : list PolarLine) (err : option R) (contour_image : option Image) : Py (list Point) :=
  lines ← alloc (Unclassified peaks);
  _divide_line_orientation lines err None;;
  _find_intersections lines contour_image.

End Scanner.

(** ** math_utils, from the specification *)

Module MathUtils.
Section Epsilon.

(** The numerical tolerance below which a quantity counts as zero. *)
Variable epsilon : R.

(** Modelled from the spec: [math_utils.find_point_polar], the spec's
    toCartesianSegment.  For each of the two sampling abscissas it solves
    [x*cos(angle) + y*sin(angle) = distance] for [y], and fails with
    DegenerateGeometry when [sin(angle)] is within epsilon of zero. *)
Definition find_point_polar (line : PolarLine) (x : R * R) : outcome (R * R) :=
  if Rlt_dec (Rabs (sin (angle line))) epsilon then Raise DegenerateGeometry
  else Return ((intercept line - x.1 * cos (angle line)) / sin (angle line),
               (intercept line - x.2 * cos (angle line)) / sin (angle line))%R.

(** Modelled from the spec: [math_utils.points2line], the spec's
    toLineEquation.  It derives [(a, b, c)] with [a*x + b*y = c] on both
    endpoints and fails with DegenerateGeometry when they coincide. *)
Definition points2line (segment : (R * R) * (R * R)) : outcome LineEquation :=
  let '((x0, y0), (x1, y1)) := segment in
  if Req_dec_T x0 x1 then
    if Req_dec_T y0 y1 then Raise DegenerateGeometry
    else Return {| coef_a := y0 - y1; coef_b := x1 - x0;
                   coef_c := (y0 - y1) * x0 + (x1 - x0) * y0 |}%R
  else Return {| coef_a := y0 - y1; coef_b := x1 - x0;
                 coef_c := (y0 - y1) * x0 + (x1 - x0) * y0 |}%R.

(** Modelled from the spec: [math_utils.intersection], the spec's
    intersect.  Cramer's rule on the two equations; it fails with
    ParallelLines when the determinant [a1*b2 - a2*b1] is within epsilon
    of zero. *)
Definition intersection (l1 l2 : LineEquation) : outcome Point :=
  let det := (coef_a l1 * coef_b l2 - coef_a l2 * coef_b l1)%R in
  if Rlt_dec (Rabs det) epsilon then Raise ParallelLines
  else Return {| x := (coef_c l1 * coef_b l2 - coef_c l2 * coef_b l1) / det;
                 y := (coef_a l1 * coef_c l2 - coef_a l2 * coef_c l1) / det |}%R.

End Epsilon.
End MathUtils.

(** ** Reference functions used in the statements *)

(** [mapM f l] runs [f] on the elements of [l] from left to right and stops
    at the first exception. *)
Fixpoint mapM {A B : Type} (f : A → outcome B) (l : list A) : outcome (list B) :=
  match l with
  | [] => Return []
  | a :: l' => b ← f a; bs ← mapM f l'; Return (b :: bs)
  end.

(** The [direction] column that classification with tolerance [err] gives
    to the rows [rows]. *)
Definition classified_rows (err : R) (rows : list PolarLine) : list (PolarLine * cell) :=
  (λ line, (line, Str (direction err line))) <$> rows.

(** The table after classification: a table without rows is left as it
    is, since the loop body never runs. *)
Definition classify (err : R) (df : DataFrame) : DataFrame :=
  match lines_of df with
  | [] => df
  | rows => Classified (classified_rows err rows)
  end.

(** The cell of the [direction] column in row [i], when there is one. *)
Definition direction_at (df : DataFrame) (i : nat) : option cell :=
  match df with
  | Unclassified _ => None
  | Classified rows => snd <$> rows !! i
  end.

(** The rows of a table whose direction cell is [label]; a table without
    the column has no such rows. *)
Definition bucket (label : string) (df : DataFrame) : list PolarLine :=
  match df with
  | Unclassified _ => []
  | Classified rows => select_direction label rows
  end.

(** Classification of a freshly built peak table, as [select_edge] does
    it, with the table read back. *)
Definition classify_fresh (peaks : list PolarLine) (err : option R) : Py DataFrame :=
  lines ← alloc (Unclassified peaks);
  out ← _divide_line_orientation lines err None;
  deref out.

(** Two outcomes that agree up to the order of the returned rows. *)
Definition same_up_to_order {A : Type} (o1 o2 : outcome (list A)) : Prop :=
  match o1, o2 with
  | Return l1, Return l2 => l1 ≡ₚ l2
  | Raise _, Raise _ => True
  | _, _ => False
  end.

(** ** Sample data *)

(** Modelled from the spec: the numerical epsilon of [math_utils]; the
    spec fixes no value, the sample runs use a thousandth. *)
Definition epsilon_sample : R := (/ 1000)%R.

(** [y = 50]. *)
Definition horizontal_50 : PolarLine := {| hits := 9; angle := PI / 2; intercept := 50 |}.
(** [y = 30], parallel to the previous one. *)
Definition horizontal_30 : PolarLine := {| hits := 8; angle := PI / 2; intercept := 30 |}.
(** [y = -x]. *)
Definition diagonal_0 : PolarLine := {| hits := 7; angle := PI / 4; intercept := 0 |}.
(** [x = 30], as the peak finder reports a perfectly upright edge. *)
Definition vertical_30 : PolarLine := {| hits := 6; angle := 0; intercept := 30 |}.

Definition image_100 : Image := {| shape := (80, 100) |}.

(** A table whose [direction] column pairs [diagonal_0] with
    [horizontal_50]. *)
Definition crossing_table : DataFrame :=
  Classified [(diagonal_0, Str "vertical"); (horizontal_50, Str "horizontal");
              (horizontal_30, Str "irrelevant")].

(** A table whose [direction] column pairs the parallel lines
    [horizontal_30] and [horizontal_50] before the crossing pair. *)
Definition parallel_table : DataFrame :=
  Classified [(horizontal_30, Str "vertical"); (diagonal_0, Str "vertical");
              (horizontal_50, Str "horizontal")].

(** A table with one line of each orientation, as the peak finder could
    report them. *)
Definition mixed_peaks : list PolarLine := [vertical_30; horizontal_50; diagonal_0].

(** The spec-modelled [math_utils] at the sample tolerance. *)
Abbreviation sample_pairwise :=
  (_pairwise_intersection (MathUtils.find_point_polar epsilon_sample)
     MathUtils.points2line (MathUtils.intersection epsilon_sample)).
Abbreviation sample_find_intersections :=
  (_find_intersections (MathUtils.find_point_polar epsilon_sample)
     MathUtils.points2line (MathUtils.intersection epsilon_sample)).
Abbreviation sample_select_edge :=
  (select_edge (MathUtils.find_point_polar epsilon_sample)
     MathUtils.points2line (MathUtils.intersection epsilon_sample)).
Abbreviation sample_classify_then_resolve :=
  (classify_then_resolve (MathUtils.find_point_polar epsilon_sample)
     MathUtils.points2line (MathUtils.intersection epsilon_sample)).

(** ** The rest of scanner.py *)

(** [np.linspace(start, stop, num)]: [num] evenly spaced samples, both
    ends included. *)
Definition linspace (start stop : R) (num : nat) : list R :=
  (λ i, start + INR i * ((stop - start) / INR (num - 1)))%R <$> seq 0 num.

(** The angle grid [theta] that [filter_and_edge_detect] hands to the
    Hough transform. *)
Definition theta : list R := linspace (- PI * 1 / 4) (PI * 3 / 4) 180.

(** What [select_edge] asks of [ax]: a line through two points, or markers
    at the given coordinates, each with its format string. *)
Inductive plot_cmd :=
| PlotLine (xs ys : R * R) (fmt : string)
| PlotMarkers (xs ys : list R) (fmt : string).

(** [try: body / except e: handler] without access to the heap. *)
Definition catch {A : Type} (body : outcome A) (e : exn) (handler : outcome A) : outcome A :=
  match body with
  | Return a => Return a
  | Raise e' => if decide (e' = e) then handler else Raise e'
  end.

(** The rows that [lines.iterrows()] yields in the plotting loop: the
    numeric columns and the [direction] cell when the column exists. *)
Definition rows_with_direction (df : DataFrame) : list (PolarLine * option cell) :=
  match df with
  | Unclassified rows => (λ line, (line, None)) <$> rows
  | Classified rows => (λ row, (row.1, Some row.2)) <$> rows
  end.

(** [intersections['x'].values] and [intersections['y'].values]: the empty
    [pd.DataFrame()] has no column and raises KeyError. *)
Definition getitem_xy (intersections : list Point) : outcome (list R * list R) :=
  match intersections with
  | [] => Raise KeyError
  | _ => Return (x <$> intersections, y <$> intersections)
  end.

Section Plotting.

Variable find_point_polar : PolarLine → R * R → outcome (R * R).
Variable points2line : (R * R) * (R * R) → outcome LineEquation.
Variable intersection : LineEquation → LineEquation → outcome Point.

(** The body of the plotting loop of [select_edge] for one row; [drawn]
    are the commands [ax] has received so far. *)
Definition plot_row (image : Image) (drawn : list plot_cmd)
    (row : PolarLine * option cell) : outcome (list plot_cmd) :=
  let xs := (0%R, INR (shape image).2) in
  ys ← find_point_polar row.1 xs;
  direction ← match row.2 with
              | Some c => Return c
              | None => Raise KeyError
              end;
  let color := if decide (direction = Str "vertical") then "r"
               else if decide (direction = Str "horizontal") then "g"
               else "k" in
  Return (drawn ++ [PlotLine xs ys ("-" +:+ color)]).

(** [def select_edge(result, ax=None, image=None)] in full.  [ax] is the
    list of commands the axes object has received ([None] when no axes
    are passed; an axes object is truthy); the result pairs the returned
    list with the axes afterwards.  When an exception leaves the
    function, the commands already issued are not reported. *)
Definition select_edge_ax (peaks : list PolarLine) (contour_image : Image)
    (ax : option (list plot_cmd)) (image : option Image)
  : Py (list pyobj * option (list plot_cmd)) :=
  lines ← alloc (Unclassified peaks);
  _divide_line_orientation lines None None;;
  intersections ← _find_intersections find_point_polar points2line intersection
                    lines (Some contour_image);
  ax ← match ax, image with
       | Some drawn, Some image =>
           df ← deref lines;
           drawn ← lift (for_acc (rows_with_direction df) drawn (plot_row image));
           drawn ← lift (catch ('(xs, ys) ← getitem_xy intersections;
                                Return (drawn ++ [PlotMarkers xs ys "bx"]))
                               KeyError (Return drawn));
           mret (Some drawn)
       | _, _ => mret ax
       end;
  df ← deref lines;
  mret (PyStr <$> columns df, ax).

End Plotting.

(** The line commands for the rows of a classified table, in table order. *)
Definition line_color (c : cell) : string :=
  if decide (c = Str "vertical") then "r"
  else if decide (c = Str "horizontal") then "g"
  else "k".

(** The marker command for the points of the resolver, if there are any. *)
Definition marker_cmds (pts : list Point) : list plot_cmd :=
  match pts with
  | [] => []
  | _ => [PlotMarkers (x <$> pts) (y <$> pts) "bx"]
  end.

(** A polar line with the given angle. *)
Definition line_at (a : R) : PolarLine := {| hits := 1; angle := a; intercept := 0 |}.

Abbreviation sample_select_edge_ax :=
  (select_edge_ax (MathUtils.find_point_polar epsilon_sample)
     MathUtils.points2line (MathUtils.intersection epsilon_sample)).

(** ** Running the monad *)

Lemma run_bind {A B : Type} (m : Py A) (f : A → Py B) (h : heap) :
  (m ≫= f) h = match m h with
               | (Return a, h') => f a h'
               | (Raise e, h') => (Raise e, h')
               end.
Proof. reflexivity. Qed.

Lemma run_deref (r : ref) (h : heap) (df : DataFrame) :
  h !! r = Some df → deref r h = (Return df, h).
Proof. intros E. unfold deref. by rewrite E. Qed.

Lemma for_acc_mapM {A B : Type} (f : A → outcome B)
      (body : list B → A → outcome (list B)) (items : list A) :
  (∀ acc a, body acc a = (b ← f a; Return (acc ++ [b]))) →
  ∀ acc, for_acc items acc body = (bs ← mapM f items; Return (acc ++ bs)).
Proof.
  intros Hbody. induction items as [|a items IH]; intros acc.
  - cbn. by rewrite app_nil_r.
  - cbn [for_acc mapM]. rewrite Hbody. destruct (f a) as [b|e]; [|done].
    cbn. rewrite IH. destruct (mapM f items) as [bs|e]; [|done].
    cbn. by rewrite <- app_assoc.
Qed.

Lemma mapM_length {A B : Type} (f : A → outcome B) (l : list A) (bs : list B) :
  mapM f l = Return bs → length bs = length l.
Proof.
  revert bs. induction l as [|a l IH]; intros bs; cbn.
  - by intros [= <-].
  - destruct (f a) as [b|e]; [|done]. cbn.
    destruct (mapM f l) as [bs'|e]; [|done]. cbn.
    intros [= <-]. cbn. by rewrite (IH bs').
Qed.

Lemma mapM_lookup {A B : Type} (f : A → outcome B) (l : list A) (bs : list B) :
  mapM f l = Return bs →
  ∀ i a, l !! i = Some a → ∃ b, bs !! i = Some b ∧ f a = Return b.
Proof.
  revert bs. induction l as [|a l IH]; intros bs; cbn.
  - by intros _ i a.
  - destruct (f a) as [b|e] eqn:Ea; [|done]. cbn.
    destruct (mapM f l) as [bs'|e]; [|done]. cbn.
    intros [= <-] [|i] a'; cbn.
    + intros [= <-]. eauto.
    + intros Hi. by apply (IH bs').
Qed.

Lemma mapM_all_return {A B : Type} (f : A → outcome B) (l : list A) :
  (∀ a, a ∈ l → ∃ b, f a = Return b) → ∃ bs, mapM f l = Return bs.
Proof.
  induction l as [|a l IH]; intros Hall; cbn; [eauto|].
  destruct (Hall a) as [b ->]; [left|]. cbn.
  destruct IH as [bs ->]; [intros a' Ha'; apply Hall; by right|].
  cbn. eauto.
Qed.

Lemma mapM_first_raise {A B : Type} (f : A → outcome B) (pre post : list A) (a : A) (e : exn) :
  (∀ a', a' ∈ pre → ∃ b, f a' = Return b) →
  f a = Raise e →
  mapM f (pre ++ a :: post) = Raise e.
Proof.
  intros Hpre Ha. induction pre as [|a' pre IH]; cbn.
  - by rewrite Ha.
  - destruct (Hpre a') as [b ->]; [left|]. cbn.
    rewrite IH; [done|]. intros a'' Hin. apply Hpre. by right.
Qed.

Lemma same_up_to_order_trans {A : Type} (o1 o2 o3 : outcome (list A)) :
  same_up_to_order o1 o2 → same_up_to_order o2 o3 → same_up_to_order o1 o3.
Proof.
  destruct o1, o2, o3; cbn; try done. intros H1 H2. by rewrite H1.
Qed.

Lemma mapM_Permutation {A B : Type} (f : A → outcome B) (l l' : list A) :
  l ≡ₚ l' → same_up_to_order (mapM f l) (mapM f l').
Proof.
  induction 1 as [|a l l' _ IH|a b l|l l' l'' _ IH1 _ IH2].
  - cbn. reflexivity.
  - cbn [mapM]. destruct (f a); [|done]. cbn.
    destruct (mapM f l), (mapM f l'); cbn in *; try done. by constructor.
  - cbn [mapM]. destruct (f a), (f b); cbn; try done.
    destruct (mapM f l); cbn; [|done]. apply perm_swap.
  - eapply same_up_to_order_trans; eauto.
Qed.

(** ** Lists: products and buckets *)

Lemma product_Permutation {A B : Type} (l l' : list A) (k k' : list B) :
  l ≡ₚ l' → k ≡ₚ k' → product l k ≡ₚ product l' k'.
Proof.
  intros Hl Hk. unfold product. trans (a ← l; (λ b, (a, b)) <$> k').
  - clear Hl. induction l as [|a l IH]; [done|]. cbn.
    by rewrite IH, Hk.
  - by rewrite Hl.
Qed.

Lemma product_length {A B : Type} (l : list A) (k : list B) :
  length (product l k) = length l * length k.
Proof.
  unfold product. induction l as [|a l IH]; [done|].
  cbn. rewrite length_app, length_fmap, IH. lia.
Qed.

Lemma product_lookup {A B : Type} (l : list A) (k : list B) (i j : nat) (a : A) (b : B) :
  l !! i = Some a → k !! j = Some b →
  product l k !! (i * length k + j) = Some (a, b).
Proof.
  unfold product. revert i. induction l as [|a' l IH]; intros i Hi Hj; [done|].
  cbn. destruct i as [|i]; cbn in *.
  - injection Hi as ->. rewrite lookup_app_l.
    + by rewrite list_lookup_fmap, Hj.
    + rewrite length_fmap. by eapply lookup_lt_Some.
  - rewrite lookup_app_r; rewrite length_fmap; [|lia].
    replace (length k + i * length k + j - length k) with (i * length k + j) by lia.
    by apply IH.
Qed.

Lemma product_elem_of {A B : Type} (l : list A) (k : list B) (a : A) (b : B) :
  (a, b) ∈ product l k → a ∈ l ∧ b ∈ k.
Proof.
  unfold product. intros (a' & Hin & Ha')%list_elem_of_bind.
  apply list_elem_of_fmap in Hin as (b' & [= -> ->] & Hb'). done.
Qed.

Lemma select_direction_elem_of (label : string) (rows : list (PolarLine * cell)) (line : PolarLine) :
  line ∈ select_direction label rows → (line, Str label) ∈ rows.
Proof.
  unfold select_direction. intros ([l c] & -> & [Hc Hin]%list_elem_of_filter)%list_elem_of_fmap.
  cbn in *. by subst.
Qed.

Lemma select_direction_Permutation (label : string) (rows rows' : list (PolarLine * cell)) :
  rows ≡ₚ rows' → select_direction label rows ≡ₚ select_direction label rows'.
Proof. intros Hp. unfold select_direction. by rewrite Hp. Qed.

Lemma select_direction_drop (label other : string) (rows : list (PolarLine * cell)) :
  label ≠ other →
  select_direction label (filter (λ row, row.2 ≠ Str other) rows)
  = select_direction label rows.
Proof.
  intros Hne. unfold select_direction. f_equal.
  induction rows as [|[l c] rows IH]; [done|].
  rewrite !filter_cons. cbn [snd].
  destruct (decide (c = Str label)) as [->|Hc].
  - rewrite decide_True by congruence. rewrite filter_cons, decide_True by done.
    by rewrite IH.
  - destruct (decide (c ≠ Str other)); [|done].
    rewrite filter_cons, decide_False by done. done.
Qed.

(** ** The classification loop *)

Lemma fmap_with_nan (rows : list PolarLine) :
  ((λ line : PolarLine, (line, NaN)) <$> rows).*1 = rows.
Proof. induction rows as [|r rows IH]; [done|]. cbn. by rewrite IH. Qed.

Lemma classified_rows_fst (err : R) (rows : list PolarLine) :
  (classified_rows err rows).*1 = rows.
Proof.
  unfold classified_rows. induction rows as [|r rows IH]; [done|].
  cbn. by rewrite IH.
Qed.

(** Invariant of the loop: the rows before the current label carry their
    computed direction, the others still have their old cell. *)
Lemma for_each_set_value (err : R) (out : ref) (rest : list (PolarLine * cell)) :
  ∀ (done : list (PolarLine * cell)) (h : heap),
    h !! out = Some (Classified (done ++ rest)) →
    for_each (imap (λ i line, (length done + i, line)) rest.*1)
      (λ '(ix, line), cur ← deref out; assign out (_set_value cur ix (direction err line))) h
    = (Return tt, <[out := Classified (done ++ classified_rows err rest.*1)]> h).
Proof.
  induction rest as [|[r c] rest IH]; intros done h Hout.
  - rewrite app_nil_r in Hout. rewrite list_insert_id; [reflexivity|].
    unfold classified_rows. cbn [fmap list_fmap]. by rewrite app_nil_r.
  - rewrite fmap_cons, imap_cons. cbn [for_each].
    rewrite run_bind, run_bind, (run_deref _ _ _ Hout).
    unfold assign at 1, _set_value.
    rewrite alter_app_r. cbn [alter list_alter fst].
    assert (Hlt : out < length h) by (eapply lookup_lt_Some; eauto).
    rewrite (imap_ext _ (λ i line, (length (done ++ [(r, Str (direction err r))]) + i, line))).
    2:{ intros i z _. simpl. rewrite length_app. simpl. f_equal. lia. }
    rewrite (IH (done ++ [(r, Str (direction err r))])).
    + rewrite list_insert_insert_eq. f_equal. f_equal. f_equal.
      rewrite <- app_assoc. reflexivity.
    + rewrite list_lookup_insert_eq by done. rewrite <- app_assoc. reflexivity.
Qed.

Lemma divide_loop (err : R) (out : ref) (df : DataFrame) (h : heap) :
  h !! out = Some df →
  for_each (iterrows df)
    (λ '(ix, line), cur ← deref out; assign out (_set_value cur ix (direction err line))) h
  = (Return tt, <[out := classify err df]> h).
Proof.
  intros Hout. assert (Hlt : out < length h) by (eapply lookup_lt_Some; eauto).
  destruct df as [[|r rs]|rows]; unfold iterrows, classify; cbn [lines_of].
  - cbn. by rewrite list_insert_id.
  - rewrite imap_cons. cbn [for_each].
    rewrite run_bind, run_bind, (run_deref _ _ _ Hout).
    unfold assign at 1, _set_value. cbn [alter list_alter fmap list_fmap fst].
    pose proof (for_each_set_value err out ((λ line, (line, NaN)) <$> rs)
                  [(r, Str (direction err r))]) as L.
    rewrite fmap_with_nan in L. cbn [length Nat.add app] in L.
    rewrite (imap_ext _ (λ i line, (S i, line))) by done.
    rewrite L by (by rewrite list_lookup_insert_eq).
    by rewrite list_insert_insert_eq.
  - pose proof (for_each_set_value err out rows [] h Hout) as L.
    cbn [length Nat.add app] in L. rewrite L.
    destruct rows as [|row rows]; [done|]. reflexivity.
Qed.

Lemma divide_inplace (lines : ref) (err : option R) (inplace : option bool)
      (df : DataFrame) (h : heap) :
  inplace ≠ Some false →
  h !! lines = Some df →
  _divide_line_orientation lines err inplace h
  = (Return lines, <[lines := classify (default (PI * 1 / 12)%R err) df]> h).
Proof.
  intros Hin Hl. unfold _divide_line_orientation.
  assert (default true inplace = true) as -> by (by destruct inplace as [[]|]).
  cbn [negb]. rewrite run_bind. cbn [mret py_ret].
  rewrite run_bind, (run_deref _ _ _ Hl), run_bind, (divide_loop _ _ _ _ Hl).
  reflexivity.
Qed.

Lemma divide_copy (lines : ref) (err : option R) (df : DataFrame) (h : heap) :
  h !! lines = Some df →
  _divide_line_orientation lines err (Some false) h
  = (Return (length h), h ++ [classify (default (PI * 1 / 12)%R err) df]).
Proof.
  intros Hl. unfold _divide_line_orientation.
  change (default true (Some false)) with false. cbn [negb].
  rewrite run_bind, run_bind, (run_deref _ _ _ Hl). unfold alloc at 1.
  assert (Hnew : (h ++ [df]) !! length h = Some df) by apply list_lookup_middle, eq_refl.
  rewrite run_bind, (run_deref _ _ _ Hnew), run_bind, (divide_loop _ _ _ _ Hnew).
  cbn [mret py_ret]. f_equal.
  rewrite insert_app_r_alt by lia. by rewrite Nat.sub_diag.
Qed.

Lemma direction_cases (err : R) (line : PolarLine) :
  ((Rabs (angle line) < err)%R ∧ direction err line = "vertical") ∨
  (¬ (Rabs (angle line) < err)%R ∧ (Rabs (angle line - PI / 2) < err)%R
   ∧ direction err line = "horizontal") ∨
  (¬ (Rabs (angle line) < err)%R ∧ ¬ (Rabs (angle line - PI / 2) < err)%R
   ∧ direction err line = "irrelevant").
Proof.
  unfold direction.
  destruct (Rlt_dec (Rabs (angle line)) err); [by left|].
  destruct (Rlt_dec (Rabs (angle line - PI / 2)) err); right; [by left|by right].
Qed.

Lemma direction_at_classify (err : R) (df : DataFrame) (i : nat) (line : PolarLine) :
  lines_of df !! i = Some line →
  direction_at (classify err df) i = Some (Str (direction err line)).
Proof.
  intros Hi. unfold classify.
  destruct (lines_of df) as [|r rs] eqn:E; [done|].
  cbn [direction_at]. unfold classified_rows.
  by rewrite list_lookup_fmap, Hi.
Qed.

Lemma lines_of_classify (err : R) (df : DataFrame) :
  lines_of (classify err df) = lines_of df.
Proof.
  unfold classify. destruct (lines_of df) as [|r rs] eqn:E; [done|].
  cbn [lines_of]. apply classified_rows_fst.
Qed.

(** ** The resolver and the orchestrator *)

Section ScannerFacts.

Variable find_point_polar : PolarLine → R * R → outcome (R * R).
Variable points2line : (R * R) * (R * R) → outcome LineEquation.
Variable intersection : LineEquation → LineEquation → outcome Point.

Local Abbreviation pairwise :=
  (_pairwise_intersection find_point_polar points2line intersection).
Local Abbreviation find_intersections :=
  (_find_intersections find_point_polar points2line intersection).

(** The points of all pairs, vertical bucket outermost. *)
Local Abbreviation pair_points ci rows :=
  (mapM (λ '(v, hz), pairwise hz v ci)
        (product (select_direction "vertical" rows)
                 (select_direction "horizontal" rows))).

Lemma find_intersections_classified (lines : ref) (ci : option Image)
      (rows : list (PolarLine * cell)) (h : heap) :
  h !! lines = Some (Classified rows) →
  find_intersections lines ci h = (pair_points ci rows, h).
Proof.
  intros Hl. unfold _find_intersections, try_except, getitem_direction.
  repeat (rewrite ?run_bind, ?(run_deref _ _ _ Hl); cbn [mret py_ret]).
  unfold lift. f_equal.
  rewrite (for_acc_mapM (λ '(v, hz), pairwise hz v ci)).
  - by destruct (mapM _ _).
  - by intros acc [v hz].
Qed.

Lemma find_intersections_unclassified (lines : ref) (ci : option Image)
      (rows : list PolarLine) (h : heap) :
  h !! lines = Some (Unclassified rows) →
  find_intersections lines ci h = (Raise KeyError, h).
Proof.
  intros Hl. unfold _find_intersections, try_except, getitem_direction.
  repeat (rewrite ?run_bind, ?(run_deref _ _ _ Hl); cbn [mret py_ret]).
  reflexivity.
Qed.

Lemma classify_then_resolve_run (peaks : list PolarLine) (err : option R)
      (ci : option Image) (h : heap) :
  classify_then_resolve find_point_polar points2line intersection peaks err ci h
  = match peaks with
    | [] => (Raise KeyError, h ++ [Unclassified []])
    | _ => (pair_points ci (classified_rows (default (PI * 1 / 12)%R err) peaks),
            h ++ [Classified (classified_rows (default (PI * 1 / 12)%R err) peaks)])
    end.
Proof.
  unfold classify_then_resolve. rewrite run_bind. unfold alloc at 1.
  assert (Hnew : (h ++ [Unclassified peaks]) !! length h = Some (Unclassified peaks))
    by apply list_lookup_middle, eq_refl.
  rewrite run_bind, (divide_inplace _ err None _ _ ltac:(done) Hnew).
  rewrite insert_app_r_alt by lia. rewrite Nat.sub_diag. cbn [insert list_insert].
  destruct peaks as [|r rs].
  - apply find_intersections_unclassified with (rows := []).
    apply list_lookup_middle, eq_refl.
  - apply find_intersections_classified. apply list_lookup_middle, eq_refl.
Qed.

Lemma select_edge_run (peaks : list PolarLine) (img : Image) (h : heap) :
  select_edge find_point_polar points2line intersection peaks img h
  = match peaks with
    | [] => (Raise KeyError, h ++ [Unclassified []])
    | _ =>
        let rows := classified_rows (PI * 1 / 12)%R peaks in
        match pair_points (Some img) rows with
        | Return _ => (Return (PyStr <$> ["hits"; "angle"; "intercept"; "direction"]),
                       h ++ [Classified rows])
        | Raise e => (Raise e, h ++ [Classified rows])
        end
    end.
Proof.
  unfold select_edge. rewrite run_bind. unfold alloc at 1.
  assert (Hnew : (h ++ [Unclassified peaks]) !! length h = Some (Unclassified peaks))
    by apply list_lookup_middle, eq_refl.
  rewrite run_bind, (divide_inplace _ None None _ _ ltac:(done) Hnew).
  rewrite insert_app_r_alt by lia. rewrite Nat.sub_diag. cbn [insert list_insert default].
  rewrite run_bind. destruct peaks as [|r rs].
  - rewrite (find_intersections_unclassified _ _ []); [done|].
    apply list_lookup_middle, eq_refl.
  - set (rows := classified_rows (PI * 1 / 12) (r :: rs)).
    assert (Hcl : (h ++ [classify (PI * 1 / 12) (Unclassified (r :: rs))]) !! length h
                  = Some (Classified rows)) by apply list_lookup_middle, eq_refl.
    rewrite (find_intersections_classified _ _ _ _ Hcl).
    cbn zeta. destruct (mapM _ _) as [pts|e]; [|done].
    rewrite run_bind, (run_deref _ _ _ Hcl). reflexivity.
Qed.

Lemma find_intersections_dangling (lines : ref) (ci : option Image) (h : heap) :
  h !! lines = None →
  find_intersections lines ci h = (Raise DanglingRef, h).
Proof.
  intros Hl. unfold _find_intersections, try_except, getitem_direction.
  rewrite !run_bind. unfold deref. rewrite Hl. reflexivity.
Qed.

End ScannerFacts.

(** ** The spec-modelled geometry on the sample lines *)

Lemma x_range_fst (ci : option Image) : (x_range ci).1 = 0%R.
Proof. by destruct ci. Qed.

Lemma x_range_snd_ge_1 (ci : option Image) :
  ci = None ∨ ci = Some image_100 → (1 <= (x_range ci).2)%R.
Proof.
  intros [->| ->]; unfold x_range, image_100; cbn [shape snd].
  - lra.
  - change 1%R with (INR 1). apply le_INR. lia.
Qed.

Lemma sin_PI4_facts :
  (sin (PI / 4) = cos (PI / 4) ∧ / 1000 <= Rabs (sin (PI / 4)) ∧ sin (PI / 4) ≠ 0)%R.
Proof.
  assert (E : sin (PI / 4) = cos (PI / 4)) by (by rewrite sin_PI4, cos_PI4).
  pose proof (sin2_cos2 (PI / 4)) as Hsq. unfold Rsqr in Hsq. rewrite <- E in Hsq.
  assert (Hpos : (0 < sin (PI / 4))%R).
  { pose proof PI_RGT_0. apply sin_gt_0; lra. }
  split; [done|]. split; [|lra].
  rewrite Rabs_pos_eq by lra. nra.
Qed.

Lemma find_point_polar_horizontal (hits d : R) (xs : R * R) :
  MathUtils.find_point_polar epsilon_sample
    {| hits := hits; angle := PI / 2; intercept := d |} xs = Return (d, d).
Proof.
  unfold MathUtils.find_point_polar, epsilon_sample. cbn [angle intercept].
  rewrite sin_PI2, cos_PI2, Rabs_R1.
  destruct (Rlt_dec 1 (/ 1000)) as [Hlt|_]; [lra|].
  f_equal. f_equal; field.
Qed.

Lemma find_point_polar_diagonal (xs : R * R) :
  MathUtils.find_point_polar epsilon_sample diagonal_0 xs = Return (- xs.1, - xs.2)%R.
Proof.
  unfold MathUtils.find_point_polar, epsilon_sample, diagonal_0. cbn [angle intercept].
  destruct sin_PI4_facts as (E & Hge & Hne). rewrite <- E.
  destruct (Rlt_dec _ _) as [Hlt|_]; [lra|].
  f_equal. f_equal; by field.
Qed.

Lemma find_point_polar_upright (xs : R * R) :
  MathUtils.find_point_polar epsilon_sample vertical_30 xs = Raise DegenerateGeometry.
Proof.
  unfold MathUtils.find_point_polar, epsilon_sample, vertical_30. cbn [angle].
  rewrite sin_0, Rabs_R0. destruct (Rlt_dec _ _) as [_|Hn]; [done|lra].
Qed.

Lemma crossing_pair (ci : option Image) :
  (1 <= (x_range ci).2)%R →
  sample_pairwise horizontal_50 diagonal_0 ci = Return {| x := -50; y := 50 |}.
Proof.
  intros Hw. unfold _pairwise_intersection, horizontal_50.
  rewrite find_point_polar_horizontal, find_point_polar_diagonal.
  cbn [mbind outcome_bind fst snd]. rewrite x_range_fst.
  set (w := (x_range ci).2) in *.
  unfold MathUtils.points2line.
  destruct (Req_dec_T 0 w) as [E|_]; [lra|].
  cbn [mbind outcome_bind]. unfold MathUtils.intersection, epsilon_sample.
  cbn [coef_a coef_b coef_c].
  destruct (Rlt_dec _ _) as [Hlt|_].
  - exfalso. revert Hlt.
    replace ((50 - 50) * (w - 0) - (- 0 - - w) * (w - 0))%R with (- (w * w))%R by ring.
    rewrite Rabs_Ropp, Rabs_pos_eq by nra. nra.
  - f_equal. f_equal; field; lra.
Qed.

Lemma parallel_pair (ci : option Image) :
  (1 <= (x_range ci).2)%R →
  sample_pairwise horizontal_50 horizontal_30 ci = Raise ParallelLines.
Proof.
  intros Hw. unfold _pairwise_intersection, horizontal_50, horizontal_30.
  rewrite !find_point_polar_horizontal.
  cbn [mbind outcome_bind fst snd]. rewrite x_range_fst.
  set (w := (x_range ci).2) in *.
  unfold MathUtils.points2line.
  destruct (Req_dec_T 0 w) as [E|_]; [lra|].
  cbn [mbind outcome_bind]. unfold MathUtils.intersection, epsilon_sample.
  cbn [coef_a coef_b coef_c].
  destruct (Rlt_dec _ _) as [_|Hn]; [done|].
  exfalso. apply Hn.
  replace ((50 - 50) * (w - 0) - (30 - 30) * (w - 0))%R with 0%R by ring.
  rewrite Rabs_R0. lra.
Qed.

Lemma sample_crossing_table :
  _find_intersections (MathUtils.find_point_polar epsilon_sample) MathUtils.points2line
    (MathUtils.intersection epsilon_sample) 0 None [crossing_table]
  = (Return [{| x := -50; y := 50 |}], [crossing_table]).
Proof.
  rewrite (find_intersections_classified _ _ _ 0 None _ [crossing_table] eq_refl).
  f_equal. change (product _ _) with [(diagonal_0, horizontal_50)].
  cbn [mapM]. rewrite crossing_pair by (apply x_range_snd_ge_1; by left). done.
Qed.

Lemma sample_parallel_table :
  _find_intersections (MathUtils.find_point_polar epsilon_sample) MathUtils.points2line
    (MathUtils.intersection epsilon_sample) 0 None [parallel_table]
  = (Raise ParallelLines, [parallel_table]).
Proof.
  rewrite (find_intersections_classified _ _ _ 0 None _ [parallel_table] eq_refl).
  f_equal.
  change (product _ _) with [(horizontal_30, horizontal_50); (diagonal_0, horizontal_50)].
  cbn [mapM]. rewrite parallel_pair by (apply x_range_snd_ge_1; by left). done.
Qed.

Lemma product_nil_r {A B : Type} (l : list A) : product l (@nil B) = [].
Proof. unfold product. induction l as [|a l IH]; [done|]. cbn. exact IH. Qed.

Lemma classify_fresh_run (peaks : list PolarLine) (err : option R) (h : heap) :
  classify_fresh peaks err h
  = (Return (classify (default (PI * 1 / 12)%R err) (Unclassified peaks)),
     h ++ [classify (default (PI * 1 / 12)%R err) (Unclassified peaks)]).
Proof.
  unfold classify_fresh. rewrite run_bind. unfold alloc at 1.
  assert (Hnew : (h ++ [Unclassified peaks]) !! length h = Some (Unclassified peaks))
    by apply list_lookup_middle, eq_refl.
  rewrite run_bind, (divide_inplace _ err None _ _ ltac:(done) Hnew).
  rewrite insert_app_r_alt by lia. rewrite Nat.sub_diag. cbn [insert list_insert].
  apply run_deref, list_lookup_middle, eq_refl.
Qed.

(** The default tolerance on the three sample angles. *)
Lemma direction_default_0 (line : PolarLine) :
  angle line = 0%R → direction (PI * 1 / 12) line = "vertical".
Proof.
  intros E. unfold direction. rewrite E, Rabs_R0. pose proof PI_RGT_0.
  destruct (Rlt_dec _ _); [done|lra].
Qed.

Lemma direction_default_PI2 (line : PolarLine) :
  angle line = (PI / 2)%R → direction (PI * 1 / 12) line = "horizontal".
Proof.
  intros E. unfold direction. rewrite E. pose proof PI_RGT_0.
  destruct (Rlt_dec _ _) as [Hlt|_].
  { rewrite Rabs_pos_eq in Hlt; lra. }
  replace (PI / 2 - PI / 2)%R with 0%R by lra. rewrite Rabs_R0.
  destruct (Rlt_dec _ _); [done|lra].
Qed.

Lemma direction_default_PI4 (line : PolarLine) :
  angle line = (PI / 4)%R → direction (PI * 1 / 12) line = "irrelevant".
Proof.
  intros E. unfold direction. rewrite E. pose proof PI_RGT_0.
  destruct (Rlt_dec _ _) as [Hlt|_].
  { rewrite Rabs_pos_eq in Hlt; lra. }
  destruct (Rlt_dec _ _) as [Hlt|_]; [|done].
  rewrite Rabs_left in Hlt; lra.
Qed.

Lemma classified_mixed_peaks :
  classified_rows (PI * 1 / 12) mixed_peaks
  = [(vertical_30, Str "vertical"); (horizontal_50, Str "horizontal");
     (diagonal_0, Str "irrelevant")].
Proof.
  unfold classified_rows, mixed_peaks. cbn [fmap list_fmap].
  by rewrite (direction_default_0 vertical_30), (direction_default_PI2 horizontal_50),
    (direction_default_PI4 diagonal_0).
Qed.

(** * The claims *)

Section Claims.

Variable find_point_polar : PolarLine → R * R → outcome (R * R).
Variable points2line : (R * R) * (R * R) → outcome LineEquation.
Variable intersection : LineEquation → LineEquation → outcome Point.

Local Abbreviation pairwise :=
  (_pairwise_intersection find_point_polar points2line intersection).
Local Abbreviation find_intersections :=
  (_find_intersections find_point_polar points2line intersection).
Local Abbreviation run_select_edge :=
  (select_edge find_point_polar points2line intersection).

(** C1, as amended: whenever [select_edge] returns, the resolver has run on
    the classified table and produced its points, but the value returned
    is [list(lines)], built from the line table alone; the points are not
    part of it. *)
Theorem select_edge_returns_list_of_lines
    (peaks : list PolarLine) (img : Image) (h h' : heap) (v : list pyobj) :
  run_select_edge peaks img h = (Return v, h') →
  ∃ df pts,
    h' !! length h = Some df ∧
    lines_of df = peaks ∧
    find_intersections (length h) (Some img) h' = (Return pts, h') ∧
    v = PyStr <$> columns df ∧
    ∀ p, PyPoint p ∉ v.
Proof.
  rewrite select_edge_run. destruct peaks as [|r rs]; [done|].
  cbn zeta. set (rows := classified_rows (PI * 1 / 12) (r :: rs)).
  destruct (mapM _ _) as [pts|e] eqn:Epts; [|done].
  intros [= <- <-]. exists (Classified rows), pts.
  assert (Hl : (h ++ [Classified rows]) !! length h = Some (Classified rows))
    by apply list_lookup_middle, eq_refl.
  split; [done|]. split; [apply classified_rows_fst|].
  split; [by rewrite (find_intersections_classified _ _ _ _ _ _ _ Hl), Epts|].
  split; [done|].
  intros p. cbn. rewrite !elem_of_cons, elem_of_nil.
  intros [?|[?|[?|[?|[]]]]]; discriminate.
Qed.

(** C2: for every line of the table and every tolerance [t] (pi/12 when
    [err] is left out), classification writes "vertical" when
    [|angle| < t], otherwise "horizontal" when [|angle - pi/2| < t],
    otherwise "irrelevant"; with the default tolerance, angle 0 is
    vertical, angle pi/2 is horizontal and angle pi/4 is irrelevant. *)
Theorem classification_by_tolerance
    (lines : ref) (err : option R) (inplace : option bool) (df : DataFrame) (h : heap) :
  h !! lines = Some df →
  ∃ out h' df',
    _divide_line_orientation lines err inplace h = (Return out, h') ∧
    h' !! out = Some df' ∧
    lines_of df' = lines_of df ∧
    ∀ i line, lines_of df !! i = Some line →
      let t := default (PI * 1 / 12)%R err in
      let a := angle line in
      ((Rabs a < t)%R → direction_at df' i = Some (Str "vertical")) ∧
      (¬ (Rabs a < t)%R → (Rabs (a - PI / 2) < t)%R →
         direction_at df' i = Some (Str "horizontal")) ∧
      (¬ (Rabs a < t)%R → ¬ (Rabs (a - PI / 2) < t)%R →
         direction_at df' i = Some (Str "irrelevant")) ∧
      (err = None → a = 0%R → direction_at df' i = Some (Str "vertical")) ∧
      (err = None → a = (PI / 2)%R → direction_at df' i = Some (Str "horizontal")) ∧
      (err = None → a = (PI / 4)%R → direction_at df' i = Some (Str "irrelevant")).
Proof.
  intros Hl. set (t := default (PI * 1 / 12)%R err).
  assert (Hrun : ∃ out h', _divide_line_orientation lines err inplace h = (Return out, h')
                           ∧ h' !! out = Some (classify t df)).
  { destruct (decide (inplace = Some false)) as [->|Hin].
    - rewrite (divide_copy _ _ _ _ Hl). eexists _, _. split; [done|].
      apply list_lookup_middle, eq_refl.
    - rewrite (divide_inplace _ _ _ _ _ Hin Hl). eexists _, _. split; [done|].
      apply list_lookup_insert_eq. by eapply lookup_lt_Some. }
  destruct Hrun as (out & h' & Hrun & Hout).
  exists out, h', (classify t df). split; [done|]. split; [done|].
  split; [apply lines_of_classify|].
  intros i line Hi. cbn zeta. rewrite (direction_at_classify t df i line Hi).
  split; [|split; [|split; [|split; [|split]]]].
  - intros Hv.
    by destruct (direction_cases t line) as [[_ ->]|[(Hn & _)|(Hn & _)]].
  - intros Hnv Hh.
    by destruct (direction_cases t line) as [[Hv _]|[(_ & _ & ->)|(_ & Hn & _)]].
  - intros Hnv Hnh.
    by destruct (direction_cases t line) as [[Hv _]|[(_ & Hh & _)|(_ & _ & ->)]].
  - intros -> Ha. change t with (PI * 1 / 12)%R. by rewrite (direction_default_0 line Ha).
  - intros -> Ha. change t with (PI * 1 / 12)%R. by rewrite (direction_default_PI2 line Ha).
  - intros -> Ha. change t with (PI * 1 / 12)%R. by rewrite (direction_default_PI4 line Ha).
Qed.

(** C3: on an empty line sequence [select_edge] does not return an empty
    result: classification adds no column to a table without rows, the
    lookup of the missing [direction] column raises KeyError, and the
    [except ValueError] clause of the resolver does not catch it. *)
Theorem select_edge_empty_raises (img : Image) (ci : option Image) (h : heap) :
  run_select_edge [] img h = (Raise KeyError, h ++ [Unclassified []]) ∧
  classify_then_resolve find_point_polar points2line intersection [] None ci h
  = (Raise KeyError, h ++ [Unclassified []]) ∧
  find_intersections 0 ci [Unclassified []] = (Raise KeyError, [Unclassified []]).
Proof.
  split; [by rewrite select_edge_run|].
  split; [by rewrite classify_then_resolve_run|].
  by apply find_intersections_unclassified with (rows := []).
Qed.

(** C5, as amended: by default, and with [inplace=True], classification
    writes the [direction] column into the table it was given and returns
    that same table; only with [inplace=False] does it classify a copy,
    leaving every table of the heap, the input included, as it was. *)
Theorem classification_default_is_in_place
    (lines : ref) (err : option R) (df : DataFrame) (h : heap) :
  h !! lines = Some df →
  let classified := classify (default (PI * 1 / 12)%R err) df in
  (∀ inplace, inplace = None ∨ inplace = Some true →
     _divide_line_orientation lines err inplace h
     = (Return lines, <[lines := classified]> h)) ∧
  _divide_line_orientation lines err (Some false) h
  = (Return (length h), h ++ [classified]) ∧
  (<[lines := classified]> h) !! lines = Some classified ∧
  (h ++ [classified]) !! lines = Some df ∧
  lines ≠ length h.
Proof.
  intros Hl classified. pose proof (lookup_lt_Some _ _ _ Hl) as Hlt.
  split; [|split; [|split; [|split]]].
  - intros inplace [-> | ->]; by apply divide_inplace.
  - by apply divide_copy.
  - by apply list_lookup_insert_eq.
  - by rewrite lookup_app_l.
  - lia.
Qed.

(** C4, as amended: the resolver has no pair-level handling.  When the
    intersection of some pair fails, the failure of the first such pair in
    iteration order leaves the resolver as it is and no point is returned;
    when no pair fails, every pair contributes exactly one point. *)
Theorem pair_failure_propagates
    (lines : ref) (ci : option Image) (rows : list (PolarLine * cell)) (h : heap) :
  h !! lines = Some (Classified rows) →
  let pairs := product (select_direction "vertical" rows)
                       (select_direction "horizontal" rows) in
  (∀ pre post v hz e,
     pairs = pre ++ (v, hz) :: post →
     (∀ v' hz', (v', hz') ∈ pre → ∃ p, pairwise hz' v' ci = Return p) →
     pairwise hz v ci = Raise e →
     find_intersections lines ci h = (Raise e, h)) ∧
  ((∀ v hz, (v, hz) ∈ pairs → ∃ p, pairwise hz v ci = Return p) →
   ∃ pts, find_intersections lines ci h = (Return pts, h) ∧ length pts = length pairs).
Proof.
  intros Hl pairs. rewrite (find_intersections_classified _ _ _ _ _ _ _ Hl).
  fold pairs. split.
  - intros pre post v hz e -> Hpre He.
    rewrite (mapM_first_raise _ pre post (v, hz) e); [done| |done].
    intros [v' hz'] Hin. by apply Hpre.
  - intros Hall.
    destruct (mapM_all_return (λ '(v, hz), pairwise hz v ci) pairs) as [pts Hpts].
    { intros [v hz] Hin. by apply Hall. }
    exists pts. rewrite Hpts. split; [done|]. by eapply mapM_length.
Qed.

(** X18: on a table that has the [direction] column the resolver works on
    the vertical and the horizontal bucket only.  Rows marked irrelevant
    take part in no pair, and removing them from the table changes
    nothing; when either bucket is empty the result is the empty table
    and no exception. *)
Theorem irrelevant_lines_dropped
    (lines : ref) (ci : option Image) (rows : list (PolarLine * cell)) (h : heap) :
  h !! lines = Some (Classified rows) →
  let verticals := select_direction "vertical" rows in
  let horizontals := select_direction "horizontal" rows in
  find_intersections lines ci h
  = (mapM (λ '(v, hz), pairwise hz v ci) (product verticals horizontals), h) ∧
  (∀ v hz, (v, hz) ∈ product verticals horizontals →
     (v, Str "vertical") ∈ rows ∧ (hz, Str "horizontal") ∈ rows) ∧
  (∀ lines' h',
     h' !! lines' = Some (Classified (filter (λ row, row.2 ≠ Str "irrelevant") rows)) →
     (find_intersections lines' ci h').1 = (find_intersections lines ci h).1) ∧
  (verticals = [] ∨ horizontals = [] → find_intersections lines ci h = (Return [], h)).
Proof.
  intros Hl verticals horizontals.
  rewrite (find_intersections_classified _ _ _ _ _ _ _ Hl).
  split; [done|]. split; [|split].
  - intros v hz [Hv Hh]%product_elem_of.
    split; by apply select_direction_elem_of.
  - intros lines' h' Hl'. rewrite (find_intersections_classified _ _ _ _ _ _ _ Hl').
    by rewrite !select_direction_drop.
  - fold verticals horizontals. intros [-> | ->]; [done|].
    by rewrite product_nil_r.
Qed.

(** C7: whenever the resolver returns, its table has at most
    [|horizontals| * |verticals|] rows: one per pair of the product. *)
Theorem intersection_count_bound
    (lines : ref) (ci : option Image) (h h' : heap) (pts : list Point) :
  find_intersections lines ci h = (Return pts, h') →
  ∃ rows,
    h !! lines = Some (Classified rows) ∧
    length pts ≤ length (select_direction "horizontal" rows)
                 * length (select_direction "vertical" rows).
Proof.
  destruct (h !! lines) as [[rows|rows]|] eqn:Hl.
  - by rewrite (find_intersections_unclassified _ _ _ _ _ _ _ Hl).
  - rewrite (find_intersections_classified _ _ _ _ _ _ _ Hl).
    intros [= Hpts <-]. exists rows. split; [done|].
    apply mapM_length in Hpts. rewrite Hpts, product_length. lia.
  - by rewrite (find_intersections_dangling _ _ _ _ _ _ Hl).
Qed.

(** C9: for every peak sequence and every permutation of it, the buckets
    after classification hold the same lines up to order, and classifying
    and resolving gives the same points up to order (or no points in both
    cases, when some pair fails or the sequence is empty). *)
Theorem reordering_changes_only_order
    (peaks peaks' : list PolarLine) (err : option R) (ci : option Image) (h h' : heap) :
  peaks ≡ₚ peaks' →
  (∃ df df',
     (classify_fresh peaks err h).1 = Return df ∧
     (classify_fresh peaks' err h').1 = Return df' ∧
     ∀ label, bucket label df ≡ₚ bucket label df') ∧
  same_up_to_order
    (classify_then_resolve find_point_polar points2line intersection peaks err ci h).1
    (classify_then_resolve find_point_polar points2line intersection peaks' err ci h').1.
Proof.
  intros Hperm. set (t := default (PI * 1 / 12)%R err).
  assert (Hrows : classified_rows t peaks ≡ₚ classified_rows t peaks')
    by (unfold classified_rows; by rewrite Hperm).
  pose proof (Permutation_length Hperm) as Hlen.
  rewrite !classify_fresh_run, !classify_then_resolve_run. fold t.
  destruct peaks as [|r rs], peaks' as [|r' rs']; try discriminate Hlen.
  - split; [|exact I]. eexists _, _. split; [done|]. split; [done|].
    intros label. reflexivity.
  - split.
    + eexists _, _. split; [done|]. split; [done|].
      intros label. by apply select_direction_Permutation.
    + cbn [fst]. apply mapM_Permutation, product_Permutation;
        by apply select_direction_Permutation.
Qed.

(** C10: the rows of the result follow the product with the vertical
    bucket as the outer loop and the horizontal bucket as the inner loop,
    each bucket in table order: row [i * |horizontals| + j] is the point of
    the [i]-th vertical and the [j]-th horizontal line. *)
Theorem intersection_order
    (lines : ref) (ci : option Image) (rows : list (PolarLine * cell))
    (h h' : heap) (pts : list Point) :
  h !! lines = Some (Classified rows) →
  find_intersections lines ci h = (Return pts, h') →
  let verticals := select_direction "vertical" rows in
  let horizontals := select_direction "horizontal" rows in
  verticals `sublist_of` rows.*1 ∧
  horizontals `sublist_of` rows.*1 ∧
  length pts = length verticals * length horizontals ∧
  ∀ i j v hz,
    verticals !! i = Some v → horizontals !! j = Some hz →
    ∃ p, pts !! (i * length horizontals + j) = Some p ∧ pairwise hz v ci = Return p.
Proof.
  intros Hl. rewrite (find_intersections_classified _ _ _ _ _ _ _ Hl).
  intros [= Hpts <-] verticals horizontals.
  split; [apply fmap_sublist, sublist_filter|].
  split; [apply fmap_sublist, sublist_filter|].
  split; [by rewrite (mapM_length _ _ _ Hpts), product_length|].
  intros i j v hz Hv Hh.
  apply (mapM_lookup _ _ _ Hpts _ (v, hz)). by apply product_lookup.
Qed.

End Claims.

Lemma pairwise_returns_iff
      (find_point_polar : PolarLine → R * R → outcome (R * R))
      (points2line : (R * R) * (R * R) → outcome LineEquation)
      (intersection : LineEquation → LineEquation → outcome Point)
      (hz v : PolarLine) (ci : option Image) (p : Point) :
  _pairwise_intersection find_point_polar points2line intersection hz v ci = Return p
  ↔ ∃ y_h y_v l_h l_v,
      find_point_polar hz (x_range ci) = Return y_h ∧
      find_point_polar v (x_range ci) = Return y_v ∧
      points2line (((x_range ci).1, y_h.1), ((x_range ci).2, y_h.2)) = Return l_h ∧
      points2line (((x_range ci).1, y_v.1), ((x_range ci).2, y_v.2)) = Return l_v ∧
      intersection l_h l_v = Return p.
Proof.
  unfold _pairwise_intersection. split.
  - destruct (find_point_polar hz _) as [y_h|e] eqn:Eh; [|done]. cbn.
    destruct (find_point_polar v _) as [y_v|e] eqn:Ev; [|done]. cbn.
    destruct (points2line (_, (_, y_h.2))) as [l_h|e] eqn:Elh; [|done]. cbn.
    destruct (points2line (_, (_, y_v.2))) as [l_v|e] eqn:Elv; [|done]. cbn.
    intros Hp. by exists y_h, y_v, l_h, l_v.
  - intros (y_h & y_v & l_h & l_v & -> & -> & Hlh & Hlv & Hp). cbn.
    rewrite Hlh. cbn. rewrite Hlv. done.
Qed.

(** C6: for the empty line sequence the table that classification hands
    to the resolver has no row, so both buckets are empty, and yet the
    resolver does not return the empty table: the table has no
    [direction] column and the lookup raises KeyError. *)
Theorem empty_buckets_raise_on_empty_sequence
    (find_point_polar : PolarLine → R * R → outcome (R * R))
    (points2line : (R * R) * (R * R) → outcome LineEquation)
    (intersection : LineEquation → LineEquation → outcome Point)
    (err : option R) (ci : option Image) (h : heap) :
  ∃ df h',
    classify_fresh [] err h = (Return df, h') ∧
    h' !! length h = Some df ∧
    lines_of df = [] ∧
    bucket "vertical" df = [] ∧
    bucket "horizontal" df = [] ∧
    _find_intersections find_point_polar points2line intersection (length h) ci h'
    = (Raise KeyError, h') ∧
    classify_then_resolve find_point_polar points2line intersection [] err ci h
    = (Raise KeyError, h').
Proof.
  exists (Unclassified []), (h ++ [Unclassified []]).
  assert (Hl : (h ++ [Unclassified []]) !! length h = Some (Unclassified []))
    by apply list_lookup_middle, eq_refl.
  split; [by rewrite classify_fresh_run|]. split; [done|].
  split; [done|]. split; [done|]. split; [done|].
  split; [by apply find_intersections_unclassified with (rows := [])|].
  by rewrite classify_then_resolve_run.
Qed.

(** C8: without an image both polar lines are converted over the interval
    [(0, 1000)] and with an image over [(0, image width)]: the pairwise
    intersection returns a point exactly when [find_point_polar] returns
    on that interval for the horizontal and for the vertical line, the
    two segments built on the interval's abscissas give line equations,
    and these intersect in that point. *)
Theorem sampling_interval
    (find_point_polar : PolarLine → R * R → outcome (R * R))
    (points2line : (R * R) * (R * R) → outcome LineEquation)
    (intersection : LineEquation → LineEquation → outcome Point)
    (hz v : PolarLine) (p : Point) :
  (_pairwise_intersection find_point_polar points2line intersection hz v None = Return p
   ↔ ∃ y_h y_v l_h l_v,
       find_point_polar hz (0, 1000)%R = Return y_h ∧
       find_point_polar v (0, 1000)%R = Return y_v ∧
       points2line ((0%R, y_h.1), (1000%R, y_h.2)) = Return l_h ∧
       points2line ((0%R, y_v.1), (1000%R, y_v.2)) = Return l_v ∧
       intersection l_h l_v = Return p) ∧
  ∀ img,
    _pairwise_intersection find_point_polar points2line intersection hz v (Some img) = Return p
    ↔ ∃ y_h y_v l_h l_v,
        find_point_polar hz (0%R, INR (shape img).2) = Return y_h ∧
        find_point_polar v (0%R, INR (shape img).2) = Return y_v ∧
        points2line ((0%R, y_h.1), (INR (shape img).2, y_h.2)) = Return l_h ∧
        points2line ((0%R, y_v.1), (INR (shape img).2, y_v.2)) = Return l_v ∧
        intersection l_h l_v = Return p.
Proof.
  split; [|intros img]; apply pairwise_returns_iff.
Qed.

(** * Sample runs *)

Lemma classified_horizontal_diagonal :
  classified_rows (PI * 1 / 12) [horizontal_50; diagonal_0]
  = [(horizontal_50, Str "horizontal"); (diagonal_0, Str "irrelevant")].
Proof.
  unfold classified_rows. cbn [fmap list_fmap].
  by rewrite (direction_default_PI2 horizontal_50), (direction_default_PI4 diagonal_0).
Qed.

Lemma sample_select_edge_run :
  sample_select_edge [horizontal_50; diagonal_0] image_100 []
  = (Return (PyStr <$> ["hits"; "angle"; "intercept"; "direction"]),
     [Classified [(horizontal_50, Str "horizontal"); (diagonal_0, Str "irrelevant")]]).
Proof. rewrite select_edge_run. cbn zeta. by rewrite classified_horizontal_diagonal. Qed.

Lemma sample_classify_then_resolve_run :
  sample_classify_then_resolve [horizontal_50; diagonal_0] None (Some image_100) []
  = (Return [],
     [Classified [(horizontal_50, Str "horizontal"); (diagonal_0, Str "irrelevant")]]).
Proof.
  rewrite classify_then_resolve_run.
  change (default (PI * 1 / 12)%R None) with (PI * 1 / 12)%R.
  by rewrite classified_horizontal_diagonal.
Qed.

Lemma sample_divide_run :
  _divide_line_orientation 0 None None [Unclassified mixed_peaks]
  = (Return 0, [Classified [(vertical_30, Str "vertical"); (horizontal_50, Str "horizontal");
                            (diagonal_0, Str "irrelevant")]]).
Proof.
  rewrite (divide_inplace 0 None None (Unclassified mixed_peaks)) by done.
  change (default (PI * 1 / 12)%R None) with (PI * 1 / 12)%R.
  unfold classify. cbn [lines_of mixed_peaks]. fold mixed_peaks.
  by rewrite classified_mixed_peaks.
Qed.

(** C1, as stated, fails: for a horizontal and a diagonal peak the
    resolver produces no point, and [select_edge] returns the four column
    labels of the line table, not the (empty) sequence of points. *)
Lemma select_edge_result_is_not_the_points :
  ∃ pts h',
    sample_classify_then_resolve [horizontal_50; diagonal_0] None (Some image_100) []
    = (Return pts, h') ∧
    sample_select_edge [horizontal_50; diagonal_0] image_100 []
    = (Return [PyStr "hits"; PyStr "angle"; PyStr "intercept"; PyStr "direction"], h') ∧
    sample_select_edge [horizontal_50; diagonal_0] image_100 []
    ≠ (Return (PyPoint <$> pts), h').
Proof.
  eexists _, _. split; [apply sample_classify_then_resolve_run|].
  rewrite sample_select_edge_run. split; [done|]. discriminate.
Qed.

Lemma select_edge_returns_list_of_lines_witness :
  sample_select_edge [horizontal_50; diagonal_0] image_100 []
  = (Return (PyStr <$> ["hits"; "angle"; "intercept"; "direction"]),
     [Classified [(horizontal_50, Str "horizontal"); (diagonal_0, Str "irrelevant")]]) ∧
  ∃ df pts,
    [Classified [(horizontal_50, Str "horizontal"); (diagonal_0, Str "irrelevant")]]
      !! length (@nil DataFrame) = Some df ∧
    lines_of df = [horizontal_50; diagonal_0] ∧
    sample_find_intersections (length (@nil DataFrame)) (Some image_100)
      [Classified [(horizontal_50, Str "horizontal"); (diagonal_0, Str "irrelevant")]]
    = (Return pts,
       [Classified [(horizontal_50, Str "horizontal"); (diagonal_0, Str "irrelevant")]]) ∧
    PyStr <$> ["hits"; "angle"; "intercept"; "direction"] = PyStr <$> columns df ∧
    ∀ p, PyPoint p ∉ PyStr <$> ["hits"; "angle"; "intercept"; "direction"].
Proof.
  split; [exact sample_select_edge_run|].
  exact (select_edge_returns_list_of_lines _ _ _ _ _ _ _ _ sample_select_edge_run).
Defined.

Lemma classification_by_tolerance_witness :
  [Unclassified mixed_peaks] !! 0 = Some (Unclassified mixed_peaks) ∧
  ∃ out h' df',
    _divide_line_orientation 0 None None [Unclassified mixed_peaks] = (Return out, h') ∧
    h' !! out = Some df' ∧
    lines_of df' = mixed_peaks ∧
    ∀ i line, mixed_peaks !! i = Some line →
      ((Rabs (angle line) < PI * 1 / 12)%R → direction_at df' i = Some (Str "vertical")) ∧
      (¬ (Rabs (angle line) < PI * 1 / 12)%R → (Rabs (angle line - PI / 2) < PI * 1 / 12)%R →
         direction_at df' i = Some (Str "horizontal")) ∧
      (¬ (Rabs (angle line) < PI * 1 / 12)%R → ¬ (Rabs (angle line - PI / 2) < PI * 1 / 12)%R →
         direction_at df' i = Some (Str "irrelevant")) ∧
      (@None R = None → angle line = 0%R → direction_at df' i = Some (Str "vertical")) ∧
      (@None R = None → angle line = (PI / 2)%R →
         direction_at df' i = Some (Str "horizontal")) ∧
      (@None R = None → angle line = (PI / 4)%R →
         direction_at df' i = Some (Str "irrelevant")).
Proof.
  split; [reflexivity|].
  exact (classification_by_tolerance 0 None None (Unclassified mixed_peaks)
           [Unclassified mixed_peaks] eq_refl).
Defined.

(** C5, as stated, fails: after the default call on a table of three
    peaks the input reference holds the classified table, not the table
    that was passed in. *)
Lemma default_classification_mutates_input :
  _divide_line_orientation 0 None None [Unclassified mixed_peaks]
  = (Return 0, [Classified [(vertical_30, Str "vertical"); (horizontal_50, Str "horizontal");
                            (diagonal_0, Str "irrelevant")]]) ∧
  [Classified [(vertical_30, Str "vertical"); (horizontal_50, Str "horizontal");
               (diagonal_0, Str "irrelevant")]] !! 0
  ≠ [Unclassified mixed_peaks] !! 0.
Proof. split; [exact sample_divide_run|discriminate]. Qed.

Lemma classification_default_is_in_place_witness :
  [Unclassified mixed_peaks] !! 0 = Some (Unclassified mixed_peaks) ∧
  (∀ inplace, inplace = None ∨ inplace = Some true →
     _divide_line_orientation 0 None inplace [Unclassified mixed_peaks]
     = (Return 0, <[0 := classify (PI * 1 / 12) (Unclassified mixed_peaks)]>
                    [Unclassified mixed_peaks])) ∧
  _divide_line_orientation 0 None (Some false) [Unclassified mixed_peaks]
  = (Return 1, [Unclassified mixed_peaks; classify (PI * 1 / 12) (Unclassified mixed_peaks)]) ∧
  (<[0 := classify (PI * 1 / 12) (Unclassified mixed_peaks)]> [Unclassified mixed_peaks]) !! 0
  = Some (classify (PI * 1 / 12) (Unclassified mixed_peaks)) ∧
  [Unclassified mixed_peaks; classify (PI * 1 / 12) (Unclassified mixed_peaks)] !! 0
  = Some (Unclassified mixed_peaks) ∧
  0 ≠ 1.
Proof.
  split; [reflexivity|].
  exact (classification_default_is_in_place 0 None (Unclassified mixed_peaks)
           [Unclassified mixed_peaks] eq_refl).
Defined.

(** C4, as stated, fails with the spec-modelled [math_utils]: in
    [parallel_table] the first pair is parallel and the second crosses at
    [(-50, 50)]; the resolver does not skip the first pair and go on, it
    leaves with ParallelLines and returns no point. *)
Lemma parallel_pair_aborts_resolver :
  sample_pairwise horizontal_50 horizontal_30 None = Raise ParallelLines ∧
  sample_pairwise horizontal_50 diagonal_0 None = Return {| x := -50; y := 50 |} ∧
  sample_find_intersections 0 None [parallel_table] = (Raise ParallelLines, [parallel_table]) ∧
  sample_find_intersections 0 None [parallel_table]
  ≠ (Return [{| x := -50; y := 50 |}], [parallel_table]).
Proof.
  split; [apply parallel_pair, x_range_snd_ge_1; by left|].
  split; [apply crossing_pair, x_range_snd_ge_1; by left|].
  rewrite sample_parallel_table. split; [done|discriminate].
Qed.

Lemma pair_failure_propagates_witness :
  [parallel_table] !! 0 = Some parallel_table ∧
  (∀ pre post v hz e,
     [(horizontal_30, horizontal_50); (diagonal_0, horizontal_50)] = pre ++ (v, hz) :: post →
     (∀ v' hz', (v', hz') ∈ pre → ∃ p, sample_pairwise hz' v' None = Return p) →
     sample_pairwise hz v None = Raise e →
     sample_find_intersections 0 None [parallel_table] = (Raise e, [parallel_table])) ∧
  ((∀ v hz, (v, hz) ∈ [(horizontal_30, horizontal_50); (diagonal_0, horizontal_50)] →
      ∃ p, sample_pairwise hz v None = Return p) →
   ∃ pts, sample_find_intersections 0 None [parallel_table] = (Return pts, [parallel_table])
          ∧ length pts = 2).
Proof.
  split; [reflexivity|].
  exact (pair_failure_propagates _ _ _ 0 None _ [parallel_table] eq_refl).
Defined.

Lemma irrelevant_lines_dropped_witness :
  [crossing_table] !! 0 = Some crossing_table ∧
  sample_find_intersections 0 None [crossing_table]
  = (mapM (λ '(v, hz), sample_pairwise hz v None) [(diagonal_0, horizontal_50)],
     [crossing_table]) ∧
  (∀ v hz, (v, hz) ∈ [(diagonal_0, horizontal_50)] →
     (v, Str "vertical") ∈ [(diagonal_0, Str "vertical"); (horizontal_50, Str "horizontal");
                            (horizontal_30, Str "irrelevant")] ∧
     (hz, Str "horizontal") ∈ [(diagonal_0, Str "vertical"); (horizontal_50, Str "horizontal");
                               (horizontal_30, Str "irrelevant")]) ∧
  (∀ lines' h',
     h' !! lines' = Some (Classified [(diagonal_0, Str "vertical");
                                      (horizontal_50, Str "horizontal")]) →
     (sample_find_intersections lines' None h').1
     = (sample_find_intersections 0 None [crossing_table]).1) ∧
  ([diagonal_0] = [] ∨ [horizontal_50] = [] →
   sample_find_intersections 0 None [crossing_table] = (Return [], [crossing_table])).
Proof.
  split; [reflexivity|].
  exact (irrelevant_lines_dropped _ _ _ 0 None _ [crossing_table] eq_refl).
Defined.

Lemma intersection_count_bound_witness :
  sample_find_intersections 0 None [crossing_table]
  = (Return [{| x := -50; y := 50 |}], [crossing_table]) ∧
  ∃ rows,
    [crossing_table] !! 0 = Some (Classified rows) ∧
    length [{| x := -50; y := 50 |}]
    ≤ length (select_direction "horizontal" rows) * length (select_direction "vertical" rows).
Proof.
  split; [exact sample_crossing_table|].
  exact (intersection_count_bound _ _ _ _ _ _ _ _ sample_crossing_table).
Defined.

Lemma reordering_changes_only_order_witness :
  [horizontal_50; diagonal_0] ≡ₚ [diagonal_0; horizontal_50] ∧
  (∃ df df',
     (classify_fresh [horizontal_50; diagonal_0] None []).1 = Return df ∧
     (classify_fresh [diagonal_0; horizontal_50] None []).1 = Return df' ∧
     ∀ label, bucket label df ≡ₚ bucket label df') ∧
  same_up_to_order
    (sample_classify_then_resolve [horizontal_50; diagonal_0] None (Some image_100) []).1
    (sample_classify_then_resolve [diagonal_0; horizontal_50] None (Some image_100) []).1.
Proof.
  split; [apply perm_swap|].
  exact (reordering_changes_only_order _ _ _ _ _ None (Some image_100) [] []
           (perm_swap _ _ _)).
Defined.

Lemma intersection_order_witness :
  [crossing_table] !! 0 = Some crossing_table ∧
  sample_find_intersections 0 None [crossing_table]
  = (Return [{| x := -50; y := 50 |}], [crossing_table]) ∧
  [diagonal_0] `sublist_of` [diagonal_0; horizontal_50; horizontal_30] ∧
  [horizontal_50] `sublist_of` [diagonal_0; horizontal_50; horizontal_30] ∧
  length [{| x := -50; y := 50 |}] = 1 * 1 ∧
  ∀ i j v hz,
    [diagonal_0] !! i = Some v → [horizontal_50] !! j = Some hz →
    ∃ p, [{| x := -50; y := 50 |}] !! (i * 1 + j) = Some p
         ∧ sample_pairwise hz v None = Return p.
Proof.
  split; [reflexivity|]. split; [exact sample_crossing_table|].
  exact (intersection_order _ _ _ 0 None
           [(diagonal_0, Str "vertical"); (horizontal_50, Str "horizontal");
            (horizontal_30, Str "irrelevant")]
           [crossing_table] _ _ eq_refl sample_crossing_table).
Defined.

Lemma sampling_interval_witness :
  sample_pairwise horizontal_50 diagonal_0 None = Return {| x := -50; y := 50 |} ∧
  ∃ y_h y_v l_h l_v,
    MathUtils.find_point_polar epsilon_sample horizontal_50 (0, 1000)%R = Return y_h ∧
    MathUtils.find_point_polar epsilon_sample diagonal_0 (0, 1000)%R = Return y_v ∧
    MathUtils.points2line ((0%R, y_h.1), (1000%R, y_h.2)) = Return l_h ∧
    MathUtils.points2line ((0%R, y_v.1), (1000%R, y_v.2)) = Return l_v ∧
    MathUtils.intersection epsilon_sample l_h l_v = Return {| x := -50; y := 50 |}.
Proof.
  assert (Hrun : sample_pairwise horizontal_50 diagonal_0 None
                 = Return {| x := -50; y := 50 |})
    by (apply crossing_pair, x_range_snd_ge_1; by left).
  split; [exact Hrun|].
  destruct (sampling_interval (MathUtils.find_point_polar epsilon_sample)
              MathUtils.points2line (MathUtils.intersection epsilon_sample)
              horizontal_50 diagonal_0 {| x := -50; y := 50 |}) as [Hnone _].
  apply Hnone. exact Hrun.
Defined.

(** * Further properties of scanner.py *)

Lemma mapM_return_all {A B : Type} (f : A → outcome B) (l : list A) (bs : list B) :
  mapM f l = Return bs → ∀ a, a ∈ l → ∃ b, f a = Return b.
Proof.
  revert bs. induction l as [|a l IH]; intros bs; cbn.
  - intros _ a Ha. by apply elem_of_nil in Ha.
  - destruct (f a) as [b|e] eqn:Ea; [|done]. cbn.
    destruct (mapM f l) as [bs'|e]; [|done]. cbn.
    intros _ a' [->|Hin]%elem_of_cons; [eauto|]. by apply (IH bs').
Qed.

Lemma select_direction_keep (label : string) (P : PolarLine * cell → Prop)
      `{!∀ row, Decision (P row)} (rows : list (PolarLine * cell)) :
  (∀ row, row.2 = Str label → P row) →
  select_direction label (filter P rows) = select_direction label rows.
Proof.
  intros HP. unfold select_direction. f_equal.
  induction rows as [|row rows IH]; [done|].
  rewrite !filter_cons.
  destruct (decide (row.2 = Str label)) as [Hc|Hc].
  - rewrite decide_True by auto. rewrite filter_cons, decide_True by done.
    by rewrite IH.
  - destruct (decide (P row)); [|done].
    by rewrite filter_cons, decide_False.
Qed.

Lemma select_direction_cons (label : string) (line : PolarLine) (c : cell)
      (rows : list (PolarLine * cell)) :
  select_direction label ((line, c) :: rows)
  = if decide (c = Str label) then line :: select_direction label rows
    else select_direction label rows.
Proof.
  unfold select_direction. rewrite filter_cons. cbn [snd].
  by destruct (decide (c = Str label)).
Qed.

Lemma classified_buckets_partition (err : R) (rows : list PolarLine) :
  select_direction "vertical" (classified_rows err rows)
  ++ select_direction "horizontal" (classified_rows err rows)
  ++ select_direction "irrelevant" (classified_rows err rows) ≡ₚ rows.
Proof.
  induction rows as [|line rows IH]; [done|].
  unfold classified_rows in *. rewrite fmap_cons, !select_direction_cons.
  destruct (direction_cases err line) as [[_ ->]|[(_ & _ & ->)|(_ & _ & ->)]].
  - rewrite decide_True, !decide_False by done. cbn. by rewrite IH.
  - rewrite decide_False, decide_True, decide_False by done.
    rewrite <- app_comm_cons, <- Permutation_middle. by rewrite IH.
  - rewrite decide_False, decide_False, decide_True by done.
    rewrite app_assoc, <- Permutation_middle, <- app_assoc. by rewrite IH.
Qed.

Lemma classify_nonempty (err : R) (df : DataFrame) :
  lines_of df ≠ [] → classify err df = Classified (classified_rows err (lines_of df)).
Proof. unfold classify. by destruct (lines_of df). Qed.

Lemma classify_empty (err : R) (df : DataFrame) :
  lines_of df = [] → classify err df = df.
Proof. unfold classify. by intros ->. Qed.

Lemma Rabs_lt_iff (r t : R) : (Rabs r < t ↔ - t < r < t)%R.
Proof. unfold Rabs. destruct (Rcase_abs r); lra. Qed.

Lemma direction_vertical_iff (err : R) (line : PolarLine) :
  direction err line = "vertical" ↔ (Rabs (angle line) < err)%R.
Proof.
  destruct (direction_cases err line) as [[H ->]|[(H & _ & ->)|(H & _ & ->)]];
    split; done.
Qed.

Lemma direction_horizontal_iff (err : R) (line : PolarLine) :
  direction err line = "horizontal"
  ↔ ¬ (Rabs (angle line) < err)%R ∧ (Rabs (angle line - PI / 2) < err)%R.
Proof.
  destruct (direction_cases err line) as [[H ->]|[(H & H' & ->)|(H & H' & ->)]];
    split; try done; by intros [? ?].
Qed.

Lemma direction_irrelevant_iff (err : R) (line : PolarLine) :
  direction err line = "irrelevant"
  ↔ ¬ (Rabs (angle line) < err)%R ∧ ¬ (Rabs (angle line - PI / 2) < err)%R.
Proof.
  destruct (direction_cases err line) as [[H ->]|[(H & H' & ->)|(H & H' & ->)]];
    split; try done; by intros [? ?].
Qed.

Section Extras.

Variable find_point_polar : PolarLine → R * R → outcome (R * R).
Variable points2line : (R * R) * (R * R) → outcome LineEquation.
Variable intersection : LineEquation → LineEquation → outcome Point.

Local Abbreviation pairwise :=
  (_pairwise_intersection find_point_polar points2line intersection).
Local Abbreviation find_intersections :=
  (_find_intersections find_point_polar points2line intersection).
Local Abbreviation run_select_edge :=
  (select_edge find_point_polar points2line intersection).
Local Abbreviation pair_points ci rows :=
  (mapM (λ '(v, hz), pairwise hz v ci)
        (product (select_direction "vertical" rows)
                 (select_direction "horizontal" rows))).

(** X1: the resolver never writes to the heap, whatever it is given, and
    a table without the [direction] column, with or without rows, makes it
    raise KeyError: the fallback of its [except ValueError] clause never
    classifies anything. *)
Theorem resolver_never_classifies (lines : ref) (ci : option Image) (h : heap) :
  (find_intersections lines ci h).2 = h ∧
  ∀ rows, h !! lines = Some (Unclassified rows) →
    find_intersections lines ci h = (Raise KeyError, h).
Proof.
  split.
  - destruct (h !! lines) as [[rows|rows]|] eqn:Hl.
    + by rewrite (find_intersections_unclassified _ _ _ _ _ _ _ Hl).
    + by rewrite (find_intersections_classified _ _ _ _ _ _ _ Hl).
    + by rewrite (find_intersections_dangling _ _ _ _ _ _ Hl).
  - intros rows Hl. by apply find_intersections_unclassified with (rows := rows).
Qed.

(** X9: [select_edge] returns exactly when there is at least one peak and
    every (vertical, horizontal) pair of the classified peaks intersects;
    the value returned is then always the same list of four labels. *)
Theorem select_edge_returns_iff (peaks : list PolarLine) (img : Image) (h : heap) :
  let rows := classified_rows (PI * 1 / 12) peaks in
  ((∃ v h', run_select_edge peaks img h = (Return v, h'))
   ↔ peaks ≠ [] ∧
     ∀ v hz, (v, hz) ∈ product (select_direction "vertical" rows)
                               (select_direction "horizontal" rows) →
       ∃ p, pairwise hz v (Some img) = Return p) ∧
  ∀ v h', run_select_edge peaks img h = (Return v, h') →
    v = [PyStr "hits"; PyStr "angle"; PyStr "intercept"; PyStr "direction"].
Proof.
  intros rows. rewrite select_edge_run. destruct peaks as [|r rs].
  { split; [|done]. split; [by intros (v & h' & ?)|by intros [? _]]. }
  cbn zeta. fold rows. destruct (mapM _ _) as [pts|e] eqn:Epts.
  - split; [|by intros v h' [= <- _]]. split; [|eauto].
    intros _. split; [done|]. intros v hz Hin.
    by apply (mapM_return_all _ _ _ Epts (v, hz)).
  - split; [|done]. split; [by intros (v & h' & ?)|].
    intros [_ Hall].
    destruct (mapM_all_return (λ '(v, hz), pairwise hz v (Some img))
                (product (select_direction "vertical" rows)
                         (select_direction "horizontal" rows))) as [pts Hpts].
    { intros [v hz] Hin. by apply Hall. }
    congruence.
Qed.

(** X10: the resolver matches the labels exactly: rows whose cell is
    anything but the string "vertical" or the string "horizontal" (NaN,
    "irrelevant", any other spelling) can be removed without changing its
    outcome. *)
Theorem unmatched_labels_ignored
    (lines lines' : ref) (ci : option Image) (rows : list (PolarLine * cell)) (h h' : heap) :
  h !! lines = Some (Classified rows) →
  h' !! lines' = Some (Classified
    (filter (λ row, row.2 = Str "vertical" ∨ row.2 = Str "horizontal") rows)) →
  (find_intersections lines' ci h').1 = (find_intersections lines ci h).1.
Proof.
  intros Hl Hl'.
  rewrite (find_intersections_classified _ _ _ _ _ _ _ Hl),
    (find_intersections_classified _ _ _ _ _ _ _ Hl').
  cbn [fst]. rewrite !select_direction_keep; [done| |]; intros row ?; tauto.
Qed.

(** X17: with [inplace=False] the classified table is a new object: the
    resolver works on the returned reference, while the table that was
    passed in still has no [direction] column and makes it raise
    KeyError. *)
Theorem classified_copy_is_separate
    (lines : ref) (err : option R) (rows : list PolarLine) (ci : option Image) (h : heap) :
  h !! lines = Some (Unclassified rows) →
  rows ≠ [] →
  ∃ out h',
    _divide_line_orientation lines err (Some false) h = (Return out, h') ∧
    out ≠ lines ∧
    find_intersections lines ci h' = (Raise KeyError, h') ∧
    find_intersections out ci h'
    = (pair_points ci (classified_rows (default (PI * 1 / 12)%R err) rows), h').
Proof.
  intros Hl Hne. pose proof (lookup_lt_Some _ _ _ Hl) as Hlt.
  eexists _, _. split; [by apply divide_copy|].
  rewrite classify_nonempty by done. cbn [lines_of].
  split; [lia|]. split.
  - apply find_intersections_unclassified with (rows := rows).
    by rewrite lookup_app_l.
  - apply find_intersections_classified. apply list_lookup_middle, eq_refl.
Qed.

End Extras.

(** X2: classification in place is idempotent and overrides what the
    [direction] column held before: after a run on a table with rows,
    every cell is the label computed from the row's angle; a second run
    with the same tolerance changes nothing, and a run with another
    tolerance replaces every label by the one for that tolerance. *)
Theorem reclassification_overrides
    (lines : ref) (err : option R) (inplace : option bool) (df : DataFrame) (h : heap) :
  h !! lines = Some df →
  inplace ≠ Some false →
  lines_of df ≠ [] →
  ∃ h1,
    _divide_line_orientation lines err inplace h = (Return lines, h1) ∧
    h1 !! lines
    = Some (Classified (classified_rows (default (PI * 1 / 12)%R err) (lines_of df))) ∧
    _divide_line_orientation lines err inplace h1 = (Return lines, h1) ∧
    ∀ err', ∃ h2,
      _divide_line_orientation lines err' inplace h1 = (Return lines, h2) ∧
      h2 !! lines
      = Some (Classified (classified_rows (default (PI * 1 / 12)%R err') (lines_of df))).
Proof.
  intros Hl Hin Hne. pose proof (lookup_lt_Some _ _ _ Hl) as Hlt.
  set (t := default (PI * 1 / 12)%R err).
  exists (<[lines := classify t df]> h).
  assert (H1 : (<[lines := classify t df]> h) !! lines = Some (classify t df))
    by by apply list_lookup_insert_eq.
  split; [by apply divide_inplace|].
  split; [by rewrite H1, classify_nonempty|].
  assert (Hagain : ∀ err', classify (default (PI * 1 / 12)%R err') (classify t df)
                           = Classified (classified_rows (default (PI * 1 / 12)%R err')
                                           (lines_of df))).
  { intros err'. rewrite classify_nonempty; rewrite lines_of_classify; done. }
  split.
  - rewrite (divide_inplace _ _ _ _ _ Hin H1), list_insert_insert_eq.
    rewrite (Hagain err). fold t. by rewrite <- (classify_nonempty t df Hne).
  - intros err'. eexists. split; [by apply divide_inplace|].
    rewrite list_insert_insert_eq, (Hagain err'). by apply list_lookup_insert_eq.
Qed.

(** X3: after classification of a table with rows the [direction] column
    is complete: every cell holds one of the three labels, none is left
    NaN, and the vertical, horizontal and irrelevant rows together are
    exactly the rows of the table, each in one bucket. *)
Theorem buckets_partition_table
    (lines : ref) (err : option R) (inplace : option bool) (df : DataFrame) (h : heap) :
  h !! lines = Some df →
  lines_of df ≠ [] →
  ∃ out h' df',
    _divide_line_orientation lines err inplace h = (Return out, h') ∧
    h' !! out = Some df' ∧
    bucket "vertical" df' ++ bucket "horizontal" df' ++ bucket "irrelevant" df'
      ≡ₚ lines_of df ∧
    ∀ i, i < length (lines_of df) →
      direction_at df' i = Some (Str "vertical") ∨
      direction_at df' i = Some (Str "horizontal") ∨
      direction_at df' i = Some (Str "irrelevant").
Proof.
  intros Hl Hne. set (t := default (PI * 1 / 12)%R err).
  assert (Hrun : ∃ out h', _divide_line_orientation lines err inplace h = (Return out, h')
                           ∧ h' !! out = Some (classify t df)).
  { destruct (decide (inplace = Some false)) as [->|Hin].
    - rewrite (divide_copy _ _ _ _ Hl). eexists _, _. split; [done|].
      apply list_lookup_middle, eq_refl.
    - rewrite (divide_inplace _ _ _ _ _ Hin Hl). eexists _, _. split; [done|].
      apply list_lookup_insert_eq. by eapply lookup_lt_Some. }
  destruct Hrun as (out & h' & Hrun & Hout).
  exists out, h', (classify t df). split; [done|]. split; [done|]. split.
  - rewrite classify_nonempty by done. apply classified_buckets_partition.
  - intros i Hi. destruct (lookup_lt_is_Some_2 _ _ Hi) as [line Hline].
    rewrite (direction_at_classify t df i line Hline).
    destruct (direction_cases t line) as [[_ ->]|[(_ & _ & ->)|(_ & _ & ->)]]; auto.
Qed.

(** X4: classifying a table without rows does nothing: in place the heap
    is left as it is, so a table without the [direction] column still
    lacks it, and with [inplace=False] the copy equals the original. *)
Theorem classification_of_empty_table
    (lines : ref) (err : option R) (df : DataFrame) (h : heap) :
  h !! lines = Some df →
  lines_of df = [] →
  (∀ inplace, inplace ≠ Some false →
     _divide_line_orientation lines err inplace h = (Return lines, h)) ∧
  _divide_line_orientation lines err (Some false) h = (Return (length h), h ++ [df]).
Proof.
  intros Hl Hempty. split.
  - intros inplace Hin. rewrite (divide_inplace _ _ _ _ _ Hin Hl).
    by rewrite classify_empty, list_insert_id.
  - by rewrite (divide_copy _ _ _ _ Hl), classify_empty.
Qed.

(** X6: for a tolerance up to a quarter turn the two tests of the
    classifier exclude each other, so their order does not matter and a
    line is horizontal exactly when [|angle - pi/2| < t]; beyond a quarter
    turn the bands overlap and the vertical test, which comes first, wins
    (as for the angle pi/4). *)
Theorem bands_disjoint_up_to_quarter_turn (t : R) (line : PolarLine) :
  ((t <= PI / 4)%R →
     ¬ ((Rabs (angle line) < t)%R ∧ (Rabs (angle line - PI / 2) < t)%R) ∧
     (direction t line = "horizontal" ↔ (Rabs (angle line - PI / 2) < t)%R)) ∧
  ((PI / 4 < t)%R →
     (Rabs (PI / 4 - PI / 2) < t)%R ∧ direction t (line_at (PI / 4)) = "vertical").
Proof.
  pose proof PI_RGT_0 as Hpi. split.
  - intros Ht.
    assert (Hdisj : ¬ ((Rabs (angle line) < t)%R ∧ (Rabs (angle line - PI / 2) < t)%R)).
    { rewrite !Rabs_lt_iff. lra. }
    split; [done|]. rewrite direction_horizontal_iff. tauto.
  - intros Ht. split; [rewrite Rabs_lt_iff; lra|].
    apply direction_vertical_iff. cbn [line_at angle]. rewrite Rabs_lt_iff. lra.
Qed.

(** X7: the classifier does not reduce angles modulo a half turn: for a
    tolerance up to a quarter turn, when a line is vertical or horizontal,
    the same line given by the opposite normal ([angle + pi] or
    [angle - pi], with the intercept negated) is irrelevant. *)
Theorem opposite_normal_is_irrelevant (t : R) (line : PolarLine) :
  (t <= PI / 4)%R →
  direction t line ≠ "irrelevant" →
  direction t {| hits := hits line; angle := angle line + PI;
                 intercept := - intercept line |} = "irrelevant" ∧
  direction t {| hits := hits line; angle := angle line - PI;
                 intercept := - intercept line |} = "irrelevant".
Proof.
  intros Ht Hrel. pose proof PI_RGT_0 as Hpi.
  assert (Hband : (Rabs (angle line) < t)%R ∨ (Rabs (angle line - PI / 2) < t)%R).
  { destruct (direction_cases t line) as [[H _]|[(_ & H & _)|(_ & _ & H)]]; auto. done. }
  rewrite !direction_irrelevant_iff. cbn [angle].
  rewrite !Rabs_lt_iff in *. lra.
Qed.

(** X16: widening the tolerance, up to a quarter turn, never takes a line
    out of its bucket: a line that is vertical (horizontal) for [t] is
    vertical (horizontal) for every [t'] between [t] and pi/4. *)
Theorem wider_tolerance_keeps_buckets (t t' : R) (line : PolarLine) :
  (t <= t')%R → (t' <= PI / 4)%R →
  (direction t line = "vertical" → direction t' line = "vertical") ∧
  (direction t line = "horizontal" → direction t' line = "horizontal").
Proof.
  intros Htt Ht'. pose proof PI_RGT_0 as Hpi.
  rewrite !direction_vertical_iff, !direction_horizontal_iff, !Rabs_lt_iff. lra.
Qed.

Lemma mapM_fmap {A B C : Type} (g : A → B) (f : B → outcome C) (l : list A) :
  mapM f (g <$> l) = mapM (λ a, f (g a)) l.
Proof. induction l as [|a l IH]; [done|]. cbn. by rewrite IH. Qed.

Lemma mapM_ext {A B : Type} (f g : A → outcome B) (l : list A) :
  (∀ a, f a = g a) → mapM f l = mapM g l.
Proof. intros Hfg. induction l as [|a l IH]; [done|]. cbn. by rewrite Hfg, IH. Qed.

Section PlottingFacts.

Variable find_point_polar : PolarLine → R * R → outcome (R * R).
Variable points2line : (R * R) * (R * R) → outcome LineEquation.
Variable intersection : LineEquation → LineEquation → outcome Point.

Local Abbreviation pairwise :=
  (_pairwise_intersection find_point_polar points2line intersection).
Local Abbreviation find_intersections :=
  (_find_intersections find_point_polar points2line intersection).
Local Abbreviation run_select_edge :=
  (select_edge find_point_polar points2line intersection).
Local Abbreviation run_select_edge_ax :=
  (select_edge_ax find_point_polar points2line intersection).
Local Abbreviation pair_points ci rows :=
  (mapM (λ '(v, hz), pairwise hz v ci)
        (product (select_direction "vertical" rows)
                 (select_direction "horizontal" rows))).
Local Abbreviation labels :=
  [PyStr "hits"; PyStr "angle"; PyStr "intercept"; PyStr "direction"].

(** The command drawn for one row of a classified table. *)
Local Abbreviation line_cmd image :=
  (λ row : PolarLine * cell,
     ys ← find_point_polar row.1 (0%R, INR (shape image).2);
     Return (PlotLine (0%R, INR (shape image).2) ys ("-" +:+ line_color row.2))).

Lemma plot_rows_classified (image : Image) (rows : list (PolarLine * cell))
      (drawn : list plot_cmd) :
  for_acc (rows_with_direction (Classified rows)) drawn (plot_row find_point_polar image)
  = (cmds ← mapM (line_cmd image) rows; Return (drawn ++ cmds)).
Proof.
  cbn [rows_with_direction].
  rewrite (for_acc_mapM (λ row : PolarLine * option cell,
             ys ← find_point_polar row.1 (0%R, INR (shape image).2);
             c ← match row.2 with Some c => Return c | None => Raise KeyError end;
             Return (PlotLine (0%R, INR (shape image).2) ys ("-" +:+ line_color c)))).
  - by rewrite mapM_fmap.
  - intros acc [line [c|]]; unfold plot_row; cbn [fst snd];
      by destruct (find_point_polar _ _).
Qed.

Lemma marker_step (pts : list Point) (drawn : list plot_cmd) :
  catch ('(xs, ys) ← getitem_xy pts; Return (drawn ++ [PlotMarkers xs ys "bx"]))
        KeyError (Return drawn)
  = Return (drawn ++ marker_cmds pts).
Proof. destruct pts as [|p pts]; cbn; [by rewrite app_nil_r|done]. Qed.

Lemma select_edge_ax_run (peaks : list PolarLine) (img : Image)
      (ax : option (list plot_cmd)) (image : option Image) (h : heap) :
  run_select_edge_ax peaks img ax image h
  = match peaks with
    | [] => (Raise KeyError, h ++ [Unclassified []])
    | _ =>
        let rows := classified_rows (PI * 1 / 12)%R peaks in
        match pair_points (Some img) rows with
        | Raise e => (Raise e, h ++ [Classified rows])
        | Return pts =>
            match ax, image with
            | Some drawn, Some image =>
                match mapM (line_cmd image) rows with
                | Raise e => (Raise e, h ++ [Classified rows])
                | Return cmds =>
                    (Return (labels, Some (drawn ++ cmds ++ marker_cmds pts)),
                     h ++ [Classified rows])
                end
            | _, _ => (Return (labels, ax), h ++ [Classified rows])
            end
        end
    end.
Proof.
  unfold select_edge_ax. rewrite run_bind. unfold alloc at 1.
  assert (Hnew : (h ++ [Unclassified peaks]) !! length h = Some (Unclassified peaks))
    by apply list_lookup_middle, eq_refl.
  rewrite run_bind, (divide_inplace _ None None _ _ ltac:(done) Hnew).
  rewrite insert_app_r_alt by lia. rewrite Nat.sub_diag. cbn [insert list_insert default].
  rewrite run_bind. destruct peaks as [|r rs].
  - rewrite (find_intersections_unclassified _ _ _ _ _ []); [done|].
    apply list_lookup_middle, eq_refl.
  - set (rows := classified_rows (PI * 1 / 12) (r :: rs)).
    assert (Hcl : (h ++ [classify (PI * 1 / 12) (Unclassified (r :: rs))]) !! length h
                  = Some (Classified rows)) by apply list_lookup_middle, eq_refl.
    rewrite (find_intersections_classified _ _ _ _ _ _ _ Hcl).
    cbn zeta. destruct (mapM _ _) as [pts|e]; [|done].
    rewrite run_bind.
    destruct ax as [drawn|], image as [image|];
      try (cbn [mret py_ret]; rewrite run_bind, (run_deref _ _ _ Hcl); reflexivity).
    rewrite run_bind, (run_deref _ _ _ Hcl), run_bind. unfold lift at 1.
    rewrite plot_rows_classified.
    destruct (mapM (line_cmd image) rows) as [cmds|e]; [|done].
    cbn [mbind outcome_bind]. rewrite run_bind. unfold lift at 1.
    rewrite marker_step. cbn [mret py_ret].
    rewrite run_bind, (run_deref _ _ _ Hcl). cbn [columns fmap list_fmap].
    by rewrite <- app_assoc.
Qed.

(** X11: without an axes object, or without an image, [select_edge]
    draws nothing and behaves exactly like the call without both: same
    return value or same exception, same heap. *)
Theorem select_edge_without_axes
    (peaks : list PolarLine) (img : Image)
    (ax : option (list plot_cmd)) (image : option Image) (h : heap) :
  ax = None ∨ image = None →
  run_select_edge_ax peaks img ax image h
  = match run_select_edge peaks img h with
    | (Return v, h') => (Return (v, ax), h')
    | (Raise e, h') => (Raise e, h')
    end.
Proof.
  intros Hno. rewrite select_edge_ax_run, select_edge_run.
  destruct peaks as [|r rs]; [done|]. cbn zeta.
  destruct (mapM _ _) as [pts|e]; [|done].
  destruct Hno as [-> | ->]; [done|by destruct ax].
Qed.

(** X12: when [select_edge] returns with axes and image, the axes keep
    the commands they had and receive one line per peak, in table order,
    over [(0, image width)], red for vertical, green for horizontal and
    black for irrelevant lines, then one marker command when the resolver
    found points and none otherwise; the value returned is the one of the
    call without axes. *)
Theorem select_edge_draws_every_line
    (peaks : list PolarLine) (img image : Image) (drawn : list plot_cmd)
    (h h' : heap) (v : list pyobj) (ax' : option (list plot_cmd)) :
  run_select_edge_ax peaks img (Some drawn) (Some image) h = (Return (v, ax'), h') →
  ∃ cmds pts,
    ax' = Some (drawn ++ cmds ++ marker_cmds pts) ∧
    run_select_edge peaks img h = (Return v, h') ∧
    find_intersections (length h) (Some img) h' = (Return pts, h') ∧
    length cmds = length peaks ∧
    ∀ i line, peaks !! i = Some line →
      ∃ ys fmt,
        cmds !! i = Some (PlotLine (0%R, INR (shape image).2) ys fmt) ∧
        find_point_polar line (0%R, INR (shape image).2) = Return ys ∧
        (direction (PI * 1 / 12) line = "vertical" → fmt = "-r") ∧
        (direction (PI * 1 / 12) line = "horizontal" → fmt = "-g") ∧
        (direction (PI * 1 / 12) line = "irrelevant" → fmt = "-k").
Proof.
  rewrite select_edge_ax_run, select_edge_run.
  destruct peaks as [|r rs]; [done|]. cbn zeta.
  set (rows := classified_rows (PI * 1 / 12) (r :: rs)).
  destruct (mapM _ _) as [pts|e] eqn:Epts; [|done].
  destruct (mapM (line_cmd image) rows) as [cmds|e] eqn:Ecmds; [|done].
  intros [= <- <- <-]. exists cmds, pts. split; [done|]. split; [done|].
  assert (Hl : (h ++ [Classified rows]) !! length h = Some (Classified rows))
    by apply list_lookup_middle, eq_refl.
  split; [by rewrite (find_intersections_classified _ _ _ _ _ _ _ Hl), Epts|].
  split.
  { rewrite (mapM_length _ _ _ Ecmds). unfold rows, classified_rows.
    by rewrite length_fmap. }
  intros i line Hi.
  assert (Hrow : rows !! i = Some (line, Str (direction (PI * 1 / 12) line))).
  { unfold rows, classified_rows. by rewrite list_lookup_fmap, Hi. }
  destruct (mapM_lookup _ _ _ Ecmds i _ Hrow) as (cmd & Hcmd & Hline).
  cbn [fst snd] in Hline.
  destruct (find_point_polar line _) as [ys|e] eqn:Eys; [|done].
  cbn in Hline. injection Hline as <-.
  exists ys, ("-" +:+ line_color (Str (direction (PI * 1 / 12) line))).
  split; [done|]. split; [done|].
  repeat split; by intros ->.
Qed.

(** X13: drawing can only add failures: with axes and image,
    [select_edge] returns exactly when the call without axes returns and
    every peak, irrelevant ones included, can be converted over
    [(0, image width)]. *)
Theorem select_edge_with_axes_returns_iff
    (peaks : list PolarLine) (img image : Image) (drawn : list plot_cmd) (h : heap) :
  (∃ r h', run_select_edge_ax peaks img (Some drawn) (Some image) h = (Return r, h'))
  ↔ (∃ v h', run_select_edge peaks img h = (Return v, h')) ∧
    ∀ line, line ∈ peaks →
      ∃ ys, find_point_polar line (0%R, INR (shape image).2) = Return ys.
Proof.
  rewrite select_edge_ax_run, select_edge_run.
  destruct peaks as [|r rs].
  { split; [by intros (? & ? & ?)|by intros [(? & ? & ?) _]]. }
  cbn zeta. set (rows := classified_rows (PI * 1 / 12) (r :: rs)).
  destruct (mapM _ _) as [pts|e] eqn:Epts.
  2:{ split; [by intros (? & ? & ?)|by intros [(? & ? & ?) _]]. }
  destruct (mapM (line_cmd image) rows) as [cmds|e] eqn:Ecmds.
  - split; [|eauto]. intros _. split; [eauto|].
    intros line Hin.
    assert (Hrow : (line, Str (direction (PI * 1 / 12) line)) ∈ rows).
    { unfold rows, classified_rows.
      apply (list_elem_of_fmap_2 (λ line, (line, Str (direction (PI * 1 / 12) line)))).
      done. }
    destruct (mapM_return_all _ _ _ Ecmds _ Hrow) as [cmd Hcmd].
    cbn [fst snd] in Hcmd. destruct (find_point_polar line _) as [ys|e]; [eauto|done].
  - split; [by intros (? & ? & ?)|]. intros [_ Hall]. exfalso.
    destruct (mapM_all_return (line_cmd image) rows) as [cmds Hcmds]; [|congruence].
    intros [line c] Hin. cbn [fst snd].
    assert (Hline : line ∈ r :: rs).
    { unfold rows, classified_rows in Hin.
      apply list_elem_of_fmap in Hin as (line' & [= -> _] & Hin). done. }
    destruct (Hall line Hline) as [ys ->]. cbn. eauto.
Qed.

(** X5: with a tolerance that is not positive every line is irrelevant,
    and classification followed by resolution of any peaks returns the
    empty table. *)
Theorem nonpositive_tolerance_finds_nothing
    (peaks : list PolarLine) (t : R) (ci : option Image) (h : heap) :
  (t <= 0)%R →
  peaks ≠ [] →
  (∀ line, direction t line = "irrelevant") ∧
  classify_then_resolve find_point_polar points2line intersection peaks (Some t) ci h
  = (Return [], h ++ [Classified ((λ line, (line, Str "irrelevant")) <$> peaks)]).
Proof.
  intros Ht Hne.
  assert (Hirr : ∀ line, direction t line = "irrelevant").
  { intros line. apply direction_irrelevant_iff.
    pose proof (Rabs_pos (angle line)). pose proof (Rabs_pos (angle line - PI / 2)).
    lra. }
  split; [done|].
  rewrite classify_then_resolve_run. destruct peaks as [|r rs]; [done|].
  change (default (PI * 1 / 12)%R (Some t)) with t.
  assert (Hrows : classified_rows t (r :: rs)
                  = (λ line, (line, Str "irrelevant")) <$> (r :: rs)).
  { unfold classified_rows. apply list_fmap_ext. intros _ line _. by rewrite Hirr. }
  rewrite Hrows. f_equal.
  assert (Hv : select_direction "vertical"
                 ((λ line : PolarLine, (line, Str "irrelevant")) <$> (r :: rs)) = []).
  { generalize (r :: rs). intros l. induction l as [|a l IH]; [done|].
    rewrite fmap_cons, select_direction_cons. by rewrite decide_False. }
  by rewrite Hv.
Qed.

End PlottingFacts.

(** ** The angle grid of filter_and_edge_detect *)

Lemma INR_le_const (k : nat) (c : Z) : (Z.of_nat k ≤ c)%Z → (INR k <= IZR c)%R.
Proof. intros H. rewrite INR_IZR_INZ. by apply IZR_le. Qed.

Lemma INR_ge_const (k : nat) (c : Z) : (c ≤ Z.of_nat k)%Z → (IZR c <= INR k)%R.
Proof. intros H. rewrite INR_IZR_INZ. by apply IZR_le. Qed.

Lemma theta_lookup (k : nat) (a : R) :
  theta !! k = Some a ↔ k < 180 ∧ a = (- PI / 4 + INR k * (PI / 179))%R.
Proof.
  unfold theta, linspace. rewrite list_lookup_fmap.
  replace (INR (180 - 1)) with 179%R
    by (change (180 - 1) with 179; rewrite INR_IZR_INZ; reflexivity).
  split.
  - destruct (seq 0 180 !! k) as [i|] eqn:Ei; [|done].
    apply lookup_seq in Ei as [-> Hk]. cbn [fmap option_fmap option_map Nat.add].
    intros [= <-]. split; [done|]. field.
  - intros [Hk ->]. rewrite (lookup_seq_lt _ _ _ Hk). cbn [fmap option_fmap option_map Nat.add].
    f_equal. field.
Qed.

(** X14: the Hough transform is given 180 angles from -pi/4 to 3pi/4,
    both ends included, in steps of pi/179: every angle lies in that
    range, and the first and the last angle differ by exactly a half
    turn. *)
Theorem theta_grid_range :
  length theta = 180 ∧
  (∀ k a, theta !! k = Some a →
     a = (- PI / 4 + INR k * (PI / 179))%R ∧ (- PI / 4 <= a <= 3 * PI / 4)%R) ∧
  ∃ first last,
    theta !! 0 = Some first ∧ theta !! 179 = Some last ∧ (last - first = PI)%R.
Proof.
  pose proof PI_RGT_0 as Hpi. split; [|split].
  - unfold theta, linspace. by rewrite length_fmap, length_seq.
  - intros k a [Hk ->]%theta_lookup. split; [done|].
    pose proof (pos_INR k) as H0.
    pose proof (INR_le_const k 179 ltac:(lia)) as H179.
    nra.
  - exists (- PI / 4 + INR 0 * (PI / 179))%R, (- PI / 4 + INR 179 * (PI / 179))%R.
    split; [apply theta_lookup; split; [lia|done]|].
    split; [apply theta_lookup; split; [lia|done]|].
    pose proof (INR_le_const 179 179 ltac:(lia)) as Hle.
    pose proof (INR_ge_const 179 179 ltac:(lia)) as Hge.
    assert (E : INR 179 = 179%R) by lra. rewrite E.
    change (INR 0) with 0%R. field.
Qed.

(** X15: with the default tolerance the classifier marks exactly the grid
    angles with index 30 to 59 as vertical and those with index 120 to
    149 as horizontal: thirty columns of the accumulator each, the other
    120 being irrelevant. *)
Theorem theta_grid_classification (k : nat) (line : PolarLine) :
  theta !! k = Some (angle line) →
  (direction (PI * 1 / 12) line = "vertical" ↔ 30 ≤ k ≤ 59) ∧
  (direction (PI * 1 / 12) line = "horizontal" ↔ 120 ≤ k ≤ 149).
Proof.
  pose proof PI_RGT_0 as Hpi. intros [Hk Ha]%theta_lookup.
  rewrite direction_vertical_iff, direction_horizontal_iff, !Rabs_lt_iff, Ha.
  pose proof (pos_INR k) as H0.
  assert (Hle : ∀ c, (Z.of_nat k ≤ c)%Z → (INR k * PI <= IZR c * PI)%R).
  { intros c Hc. pose proof (INR_le_const k c Hc). nra. }
  assert (Hge : ∀ c, (c ≤ Z.of_nat k)%Z → (IZR c * PI <= INR k * PI)%R).
  { intros c Hc. pose proof (INR_ge_const k c Hc). nra. }
  split; split.
  - intros [H1 H2].
    destruct (decide (k ≤ 29)) as [Hc|Hc];
      [pose proof (Hle 29%Z ltac:(lia)) as B; lra|].
    destruct (decide (60 ≤ k)) as [Hc'|Hc'];
      [pose proof (Hge 60%Z ltac:(lia)) as B; lra|].
    lia.
  - intros [H1 H2]. pose proof (Hge 30%Z ltac:(lia)) as B1.
    pose proof (Hle 59%Z ltac:(lia)) as B2. lra.
  - intros [_ [H1 H2]].
    destruct (decide (k ≤ 119)) as [Hc|Hc];
      [pose proof (Hle 119%Z ltac:(lia)) as B; lra|].
    destruct (decide (150 ≤ k)) as [Hc'|Hc'];
      [pose proof (Hge 150%Z ltac:(lia)) as B; lra|].
    lia.
  - intros [H1 H2]. pose proof (Hge 120%Z ltac:(lia)) as B1.
    pose proof (Hle 149%Z ltac:(lia)) as B2. lra.
Qed.

(** ** Sample runs for the further properties *)

Lemma sample_select_edge_ax_run :
  sample_select_edge_ax [horizontal_50; diagonal_0] image_100 (Some []) (Some image_100) []
  = (Return ([PyStr "hits"; PyStr "angle"; PyStr "intercept"; PyStr "direction"],
             Some [PlotLine (0%R, INR 100) (50%R, 50%R) "-g";
                   PlotLine (0%R, INR 100) (- 0, - INR 100)%R "-k"]),
     [Classified [(horizontal_50, Str "horizontal"); (diagonal_0, Str "irrelevant")]]).
Proof.
  rewrite select_edge_ax_run. cbn zeta. rewrite classified_horizontal_diagonal.
  change (product _ _) with (@nil (PolarLine * PolarLine)).
  cbn [mapM fst snd image_100 shape].
  unfold horizontal_50 at 1. rewrite find_point_polar_horizontal, find_point_polar_diagonal.
  reflexivity.
Qed.

Lemma resolver_never_classifies_witness :
  (sample_find_intersections 0 None [Unclassified mixed_peaks]).2 = [Unclassified mixed_peaks] ∧
  [Unclassified mixed_peaks] !! 0 = Some (Unclassified mixed_peaks) ∧
  sample_find_intersections 0 None [Unclassified mixed_peaks]
  = (Raise KeyError, [Unclassified mixed_peaks]).
Proof.
  destruct (resolver_never_classifies (MathUtils.find_point_polar epsilon_sample)
              MathUtils.points2line (MathUtils.intersection epsilon_sample)
              0 None [Unclassified mixed_peaks]) as [Hheap Hraise].
  split; [exact Hheap|]. split; [reflexivity|]. exact (Hraise mixed_peaks eq_refl).
Defined.

Lemma crossing_table_has_rows : lines_of crossing_table ≠ [].
Proof. discriminate. Qed.

Lemma reclassification_overrides_witness :
  [crossing_table] !! 0 = Some crossing_table ∧
  @None bool ≠ Some false ∧
  lines_of crossing_table ≠ [] ∧
  ∃ h1,
    _divide_line_orientation 0 None None [crossing_table] = (Return 0, h1) ∧
    h1 !! 0 = Some (Classified (classified_rows (PI * 1 / 12)
                                  [diagonal_0; horizontal_50; horizontal_30])) ∧
    _divide_line_orientation 0 None None h1 = (Return 0, h1) ∧
    ∀ err', ∃ h2,
      _divide_line_orientation 0 err' None h1 = (Return 0, h2) ∧
      h2 !! 0 = Some (Classified (classified_rows (default (PI * 1 / 12)%R err')
                                    [diagonal_0; horizontal_50; horizontal_30])).
Proof.
  split; [reflexivity|]. split; [discriminate|]. split; [exact crossing_table_has_rows|].
  exact (reclassification_overrides 0 None None crossing_table [crossing_table]
           eq_refl ltac:(discriminate) crossing_table_has_rows).
Defined.

Lemma mixed_peaks_has_rows : lines_of (Unclassified mixed_peaks) ≠ [].
Proof. discriminate. Qed.

Lemma buckets_partition_table_witness :
  [Unclassified mixed_peaks] !! 0 = Some (Unclassified mixed_peaks) ∧
  lines_of (Unclassified mixed_peaks) ≠ [] ∧
  ∃ out h' df',
    _divide_line_orientation 0 None None [Unclassified mixed_peaks] = (Return out, h') ∧
    h' !! out = Some df' ∧
    bucket "vertical" df' ++ bucket "horizontal" df' ++ bucket "irrelevant" df'
      ≡ₚ mixed_peaks ∧
    ∀ i, i < 3 →
      direction_at df' i = Some (Str "vertical") ∨
      direction_at df' i = Some (Str "horizontal") ∨
      direction_at df' i = Some (Str "irrelevant").
Proof.
  split; [reflexivity|]. split; [exact mixed_peaks_has_rows|].
  exact (buckets_partition_table 0 None None (Unclassified mixed_peaks)
           [Unclassified mixed_peaks] eq_refl mixed_peaks_has_rows).
Defined.

Lemma classification_of_empty_table_witness :
  [Unclassified []] !! 0 = Some (Unclassified []) ∧
  lines_of (Unclassified []) = [] ∧
  (∀ inplace, inplace ≠ Some false →
     _divide_line_orientation 0 None inplace [Unclassified []]
     = (Return 0, [Unclassified []])) ∧
  _divide_line_orientation 0 None (Some false) [Unclassified []]
  = (Return 1, [Unclassified []; Unclassified []]).
Proof.
  split; [reflexivity|]. split; [reflexivity|].
  exact (classification_of_empty_table 0 None (Unclassified []) [Unclassified []]
           eq_refl eq_refl).
Defined.

Lemma mixed_peaks_nonempty : mixed_peaks ≠ [].
Proof. discriminate. Qed.

Lemma nonpositive_tolerance_finds_nothing_witness :
  (0 <= 0)%R ∧
  mixed_peaks ≠ [] ∧
  (∀ line, direction 0 line = "irrelevant") ∧
  sample_classify_then_resolve mixed_peaks (Some 0%R) None []
  = (Return [], [Classified [(vertical_30, Str "irrelevant"); (horizontal_50, Str "irrelevant");
                             (diagonal_0, Str "irrelevant")]]).
Proof.
  split; [apply Rle_refl|]. split; [exact mixed_peaks_nonempty|].
  exact (nonpositive_tolerance_finds_nothing _ _ _ mixed_peaks 0%R None []
           (Rle_refl 0) mixed_peaks_nonempty).
Defined.

Lemma twelfth_le_quarter : (PI * 1 / 12 <= PI / 4)%R.
Proof. pose proof PI_RGT_0. lra. Qed.

Lemma quarter_lt_half : (PI / 4 < PI / 2)%R.
Proof. pose proof PI_RGT_0. lra. Qed.

Lemma bands_disjoint_up_to_quarter_turn_witness :
  ((PI * 1 / 12 <= PI / 4)%R ∧
   ¬ ((Rabs (angle horizontal_50) < PI * 1 / 12)%R
      ∧ (Rabs (angle horizontal_50 - PI / 2) < PI * 1 / 12)%R) ∧
   (direction (PI * 1 / 12) horizontal_50 = "horizontal"
    ↔ (Rabs (angle horizontal_50 - PI / 2) < PI * 1 / 12)%R)) ∧
  ((PI / 4 < PI / 2)%R ∧
   (Rabs (PI / 4 - PI / 2) < PI / 2)%R ∧ direction (PI / 2) (line_at (PI / 4)) = "vertical").
Proof.
  split.
  - split; [exact twelfth_le_quarter|].
    exact (proj1 (bands_disjoint_up_to_quarter_turn (PI * 1 / 12) horizontal_50)
             twelfth_le_quarter).
  - split; [exact quarter_lt_half|].
    exact (proj2 (bands_disjoint_up_to_quarter_turn (PI / 2) horizontal_50)
             quarter_lt_half).
Defined.

Lemma vertical_30_is_relevant : direction (PI * 1 / 12) vertical_30 ≠ "irrelevant".
Proof. by rewrite (direction_default_0 vertical_30). Qed.

Lemma opposite_normal_is_irrelevant_witness :
  (PI * 1 / 12 <= PI / 4)%R ∧
  direction (PI * 1 / 12) vertical_30 ≠ "irrelevant" ∧
  direction (PI * 1 / 12) {| hits := 6; angle := 0 + PI; intercept := - 30 |} = "irrelevant" ∧
  direction (PI * 1 / 12) {| hits := 6; angle := 0 - PI; intercept := - 30 |} = "irrelevant".
Proof.
  split; [exact twelfth_le_quarter|]. split; [exact vertical_30_is_relevant|].
  exact (opposite_normal_is_irrelevant (PI * 1 / 12) vertical_30
           twelfth_le_quarter vertical_30_is_relevant).
Defined.

Lemma wider_tolerance_keeps_buckets_witness :
  (PI * 1 / 12 <= PI / 4)%R ∧ (PI / 4 <= PI / 4)%R ∧
  (direction (PI * 1 / 12) vertical_30 = "vertical" →
   direction (PI / 4) vertical_30 = "vertical") ∧
  (direction (PI * 1 / 12) vertical_30 = "horizontal" →
   direction (PI / 4) vertical_30 = "horizontal").
Proof.
  split; [exact twelfth_le_quarter|]. split; [apply Rle_refl|].
  exact (wider_tolerance_keeps_buckets (PI * 1 / 12) (PI / 4) vertical_30
           twelfth_le_quarter (Rle_refl _)).
Defined.

Lemma no_pairs_all_return (P : PolarLine → PolarLine → Prop) :
  ∀ v hz, (v, hz) ∈ @nil (PolarLine * PolarLine) → P v hz.
Proof. intros v hz Hin. by apply elem_of_nil in Hin. Qed.

Lemma select_edge_returns_iff_witness :
  [horizontal_50; diagonal_0] ≠ [] ∧
  (∀ v hz,
     (v, hz) ∈ product
       (select_direction "vertical" (classified_rows (PI * 1 / 12) [horizontal_50; diagonal_0]))
       (select_direction "horizontal" (classified_rows (PI * 1 / 12) [horizontal_50; diagonal_0])) →
     ∃ p, sample_pairwise hz v (Some image_100) = Return p) ∧
  ∃ v h', sample_select_edge [horizontal_50; diagonal_0] image_100 [] = (Return v, h').
Proof.
  assert (Hpairs : ∀ v hz,
     (v, hz) ∈ product
       (select_direction "vertical" (classified_rows (PI * 1 / 12) [horizontal_50; diagonal_0]))
       (select_direction "horizontal" (classified_rows (PI * 1 / 12) [horizontal_50; diagonal_0])) →
     ∃ p, sample_pairwise hz v (Some image_100) = Return p).
  { rewrite classified_horizontal_diagonal. apply no_pairs_all_return. }
  split; [discriminate|]. split; [exact Hpairs|].
  destruct (select_edge_returns_iff (MathUtils.find_point_polar epsilon_sample)
              MathUtils.points2line (MathUtils.intersection epsilon_sample)
              [horizontal_50; diagonal_0] image_100 []) as [Hiff _].
  apply Hiff. split; [discriminate|exact Hpairs].
Defined.

Lemma unmatched_labels_ignored_witness :
  [crossing_table] !! 0 = Some crossing_table ∧
  [Classified [(diagonal_0, Str "vertical"); (horizontal_50, Str "horizontal")]] !! 0
  = Some (Classified [(diagonal_0, Str "vertical"); (horizontal_50, Str "horizontal")]) ∧
  (sample_find_intersections 0 None
     [Classified [(diagonal_0, Str "vertical"); (horizontal_50, Str "horizontal")]]).1
  = (sample_find_intersections 0 None [crossing_table]).1.
Proof.
  split; [reflexivity|]. split; [reflexivity|].
  exact (unmatched_labels_ignored _ _ _ 0 0 None
           [(diagonal_0, Str "vertical"); (horizontal_50, Str "horizontal");
            (horizontal_30, Str "irrelevant")]
           [crossing_table]
           [Classified [(diagonal_0, Str "vertical"); (horizontal_50, Str "horizontal")]]
           eq_refl eq_refl).
Defined.

Lemma select_edge_without_axes_witness :
  (@None (list plot_cmd) = None ∨ Some image_100 = None) ∧
  sample_select_edge_ax [horizontal_50; diagonal_0] image_100 None (Some image_100) []
  = match sample_select_edge [horizontal_50; diagonal_0] image_100 [] with
    | (Return v, h') => (Return (v, None), h')
    | (Raise e, h') => (Raise e, h')
    end.
Proof.
  split; [by left|].
  exact (select_edge_without_axes _ _ _ [horizontal_50; diagonal_0] image_100
           None (Some image_100) [] (or_introl eq_refl)).
Defined.

Lemma select_edge_draws_every_line_witness :
  sample_select_edge_ax [horizontal_50; diagonal_0] image_100 (Some []) (Some image_100) []
  = (Return ([PyStr "hits"; PyStr "angle"; PyStr "intercept"; PyStr "direction"],
             Some [PlotLine (0%R, INR 100) (50%R, 50%R) "-g";
                   PlotLine (0%R, INR 100) (- 0, - INR 100)%R "-k"]),
     [Classified [(horizontal_50, Str "horizontal"); (diagonal_0, Str "irrelevant")]]) ∧
  ∃ cmds pts,
    Some [PlotLine (0%R, INR 100) (50%R, 50%R) "-g";
          PlotLine (0%R, INR 100) (- 0, - INR 100)%R "-k"]
    = Some ([] ++ cmds ++ marker_cmds pts) ∧
    sample_select_edge [horizontal_50; diagonal_0] image_100 []
    = (Return [PyStr "hits"; PyStr "angle"; PyStr "intercept"; PyStr "direction"],
       [Classified [(horizontal_50, Str "horizontal"); (diagonal_0, Str "irrelevant")]]) ∧
    sample_find_intersections 0 (Some image_100)
      [Classified [(horizontal_50, Str "horizontal"); (diagonal_0, Str "irrelevant")]]
    = (Return pts,
       [Classified [(horizontal_50, Str "horizontal"); (diagonal_0, Str "irrelevant")]]) ∧
    length cmds = 2 ∧
    ∀ i line, [horizontal_50; diagonal_0] !! i = Some line →
      ∃ ys fmt,
        cmds !! i = Some (PlotLine (0%R, INR 100) ys fmt) ∧
        MathUtils.find_point_polar epsilon_sample line (0%R, INR 100) = Return ys ∧
        (direction (PI * 1 / 12) line = "vertical" → fmt = "-r") ∧
        (direction (PI * 1 / 12) line = "horizontal" → fmt = "-g") ∧
        (direction (PI * 1 / 12) line = "irrelevant" → fmt = "-k").
Proof.
  split; [exact sample_select_edge_ax_run|].
  exact (select_edge_draws_every_line _ _ _ _ _ _ _ _ _ _ _ sample_select_edge_ax_run).
Defined.

Lemma select_edge_with_axes_returns_iff_witness :
  (∃ r h', sample_select_edge_ax [horizontal_50; diagonal_0] image_100
             (Some []) (Some image_100) [] = (Return r, h')) ∧
  (∃ v h', sample_select_edge [horizontal_50; diagonal_0] image_100 [] = (Return v, h')) ∧
  ∀ line, line ∈ [horizontal_50; diagonal_0] →
    ∃ ys, MathUtils.find_point_polar epsilon_sample line (0%R, INR 100) = Return ys.
Proof.
  assert (Hrun : ∃ r h', sample_select_edge_ax [horizontal_50; diagonal_0] image_100
                           (Some []) (Some image_100) [] = (Return r, h'))
    by (eexists _, _; exact sample_select_edge_ax_run).
  split; [exact Hrun|].
  exact (proj1 (select_edge_with_axes_returns_iff _ _ _ [horizontal_50; diagonal_0]
                  image_100 image_100 [] []) Hrun).
Defined.

Lemma theta_first : theta !! 0 = Some (- PI / 4 + INR 0 * (PI / 179))%R.
Proof. apply theta_lookup. split; [lia|done]. Qed.

Lemma theta_thirtieth : theta !! 30 = Some (- PI / 4 + INR 30 * (PI / 179))%R.
Proof. apply theta_lookup. split; [lia|done]. Qed.

Lemma theta_grid_range_witness :
  theta !! 0 = Some (- PI / 4 + INR 0 * (PI / 179))%R ∧
  (- PI / 4 + INR 0 * (PI / 179) = - PI / 4 + INR 0 * (PI / 179))%R ∧
  (- PI / 4 <= - PI / 4 + INR 0 * (PI / 179) <= 3 * PI / 4)%R.
Proof.
  split; [exact theta_first|].
  exact (proj1 (proj2 theta_grid_range) 0 _ theta_first).
Defined.

Lemma theta_grid_classification_witness :
  theta !! 30 = Some (angle (line_at (- PI / 4 + INR 30 * (PI / 179)))) ∧
  (direction (PI * 1 / 12) (line_at (- PI / 4 + INR 30 * (PI / 179))) = "vertical"
   ↔ 30 ≤ 30 ≤ 59) ∧
  (direction (PI * 1 / 12) (line_at (- PI / 4 + INR 30 * (PI / 179))) = "horizontal"
   ↔ 120 ≤ 30 ≤ 149).
Proof.
  split; [exact theta_thirtieth|].
  exact (theta_grid_classification 30 (line_at (- PI / 4 + INR 30 * (PI / 179)))
           theta_thirtieth).
Defined.

Lemma classified_copy_is_separate_witness :
  [Unclassified mixed_peaks] !! 0 = Some (Unclassified mixed_peaks) ∧
  mixed_peaks ≠ [] ∧
  ∃ out h',
    _divide_line_orientation 0 None (Some false) [Unclassified mixed_peaks] = (Return out, h') ∧
    out ≠ 0 ∧
    sample_find_intersections 0 None h' = (Raise KeyError, h') ∧
    sample_find_intersections out None h'
    = (mapM (λ '(v, hz), sample_pairwise hz v None)
            (product (select_direction "vertical" (classified_rows (PI * 1 / 12) mixed_peaks))
                     (select_direction "horizontal" (classified_rows (PI * 1 / 12) mixed_peaks))),
       h').
Proof.
  split; [reflexivity|]. split; [exact mixed_peaks_nonempty|].
  exact (classified_copy_is_separate _ _ _ 0 None mixed_peaks None
           [Unclassified mixed_peaks] eq_refl mixed_peaks_nonempty).
Defined.

